(** * Verification of the generic site extractor of GitHubSentinel

    Shallow embedding of [src/src/custom_site_client.py] (the site
    registry, [fetch_site_items], [_parse_items], [export_site_items]) and
    of the ad-hoc registration path of [src/src/gradio_server.py]
    ([_normalize_site_name], [generate_custom_site_report]).

    Python strings are modelled as [string] (ASCII characters); Python
    exceptions as the error type [exn] of a small error monad; the
    registry dict [site_configs] as a [gmap string SiteConfig]; the files
    written by the exporter as a [gmap string string] from path to content.

    The libraries the code calls are modelled as follows:
    - [urllib.parse] ([urlsplit], [urlparse], [urlunsplit], [urlunparse],
      [urljoin]) is transcribed from CPython 3.11;
    - BeautifulSoup's [get_text(strip=True)] is transcribed from bs4;
    - the HTML parser and the CSS selector engine (soupsieve) are left
      abstract: every theorem about the extractor quantifies over them. *)

From Stdlib Require Import String Ascii List ZArith Bool Lia.
From stdpp Require Import base gmap strings pretty.
Import ListNotations.
Open Scope string_scope.
Set Warnings "-register-all".

(** ** Python string operations (ASCII) *)

Definition str1 (c : ascii) : string := String c EmptyString.

(** [str.isspace] restricted to ASCII: \t \n \v \f \r, \x1c-\x1f and space. *)
Definition py_isspace (c : ascii) : bool :=
  let n := nat_of_ascii c in
  (((9 <=? n) && (n <=? 13)) || ((28 <=? n) && (n <=? 32)))%nat.

Fixpoint lstrip_by (p : ascii -> bool) (s : string) : string :=
  match s with
  | EmptyString => EmptyString
  | String c s' => if p c then lstrip_by p s' else s
  end.

Fixpoint rstrip_by (p : ascii -> bool) (s : string) : string :=
  match s with
  | EmptyString => EmptyString
  | String c s' =>
      match rstrip_by p s' with
      | EmptyString => if p c then EmptyString else str1 c
      | r => String c r
      end
  end.

Definition strip_by (p : ascii -> bool) (s : string) : string :=
  rstrip_by p (lstrip_by p s).

(** [s.strip()] *)
Definition py_strip (s : string) : string := strip_by py_isspace s.

Fixpoint str_forallb (p : ascii -> bool) (s : string) : bool :=
  match s with
  | EmptyString => true
  | String c s' => p c && str_forallb p s'
  end.

Fixpoint str_existsb (p : ascii -> bool) (s : string) : bool :=
  match s with
  | EmptyString => false
  | String c s' => p c || str_existsb p s'
  end.

(** [c in s] *)
Definition str_in (c : ascii) (s : string) : bool := str_existsb (Ascii.eqb c) s.

Fixpoint remove_by (p : ascii -> bool) (s : string) : string :=
  match s with
  | EmptyString => EmptyString
  | String c s' => if p c then remove_by p s' else String c (remove_by p s')
  end.

(** [s[:n]] and [s[n:]] for [n >= 0] *)
Definition py_take (n : nat) (s : string) : string := substring 0 n s.
Definition py_drop (n : nat) (s : string) : string :=
  substring n (String.length s - n) s.

Fixpoint find0 (c : ascii) (s : string) : option nat :=
  match s with
  | EmptyString => None
  | String d s' => if Ascii.eqb c d then Some 0 else option_map S (find0 c s')
  end.

(** [s.find(c, start)], [None] standing for [-1] *)
Definition py_find (c : ascii) (s : string) (start : nat) : option nat :=
  option_map (Nat.add start) (find0 c (py_drop start s)).

(** [s.rfind(c)] *)
Fixpoint py_rfind (c : ascii) (s : string) : option nat :=
  match s with
  | EmptyString => None
  | String d s' =>
      match py_rfind c s' with
      | Some i => Some (S i)
      | None => if Ascii.eqb c d then Some 0 else None
      end
  end.

(** [s.split(c)] for a one-character separator *)
Fixpoint py_split (c : ascii) (s : string) : list string :=
  match s with
  | EmptyString => [""]
  | String d s' =>
      let r := py_split c s' in
      if Ascii.eqb c d then "" :: r
      else match r with
           | x :: rest => String d x :: rest
           | [] => [str1 d]
           end
  end.

(** [sep.join(l)] *)
Fixpoint py_join (sep : string) (l : list string) : string :=
  match l with
  | [] => ""
  | [x] => x
  | x :: r => x ++ sep ++ py_join sep r
  end.

(** [s.replace(c, r)] for a one-character pattern *)
Fixpoint py_replace (c : ascii) (r : string) (s : string) : string :=
  match s with
  | EmptyString => EmptyString
  | String d s' =>
      if Ascii.eqb c d then r ++ py_replace c r s' else String d (py_replace c r s')
  end.

(** The character map of [replace(" ", "_")] *)
Definition space_to_underscore (c : ascii) : ascii := if Ascii.eqb " " c then "_"%char else c.

Definition is_upper (c : ascii) : bool :=
  let n := nat_of_ascii c in ((65 <=? n) && (n <=? 90))%nat.

Definition lower_char (c : ascii) : ascii :=
  if is_upper c then ascii_of_nat (nat_of_ascii c + 32)%nat else c.

(** [s.lower()] *)
Fixpoint py_lower (s : string) : string :=
  match s with
  | EmptyString => EmptyString
  | String c s' => String (lower_char c) (py_lower s')
  end.

(** Python truthiness of a string *)
Definition truthy (s : string) : bool := negb (String.eqb s "").

(** ** Exceptions and the error monad *)

Inductive exn :=
| ValueError (msg : string)
| HTTPError (status : Z)
| RequestException (msg : string)
| OtherError (cls : string).

Definition result (A : Type) : Type := (exn + A)%type.

Abbreviation ret := (@inr exn _).
Abbreviation raise := (@inl exn _).
Definition bind {A B} (m : result A) (k : A -> result B) : result B :=
  match m with
  | inl e => inl e
  | inr a => k a
  end.

Notation "'let*' x ':=' m 'in' k" := (bind m (fun x => k))
  (at level 200, x name, m at level 200, k at level 200).

(** ** [urllib.parse] (CPython 3.11) *)

Definition uses_relative : list string :=
  [""; "ftp"; "http"; "gopher"; "nntp"; "imap"; "wais"; "file"; "https";
   "shttp"; "mms"; "prospero"; "rtsp"; "rtspu"; "sftp"; "svn"; "svn+ssh";
   "ws"; "wss"].

Definition uses_netloc : list string :=
  [""; "ftp"; "http"; "gopher"; "nntp"; "telnet"; "imap"; "wais"; "file";
   "mms"; "https"; "shttp"; "snews"; "prospero"; "rtsp"; "rtspu"; "rsync";
   "svn"; "svn+ssh"; "sftp"; "nfs"; "git"; "git+ssh"; "ws"; "wss"].

Definition uses_params : list string :=
  [""; "ftp"; "hdl"; "prospero"; "http"; "imap"; "https"; "shttp"; "rtsp";
   "rtspu"; "sip"; "sips"; "mms"; "sftp"; "tel"].

Definition mem (s : string) (l : list string) : bool :=
  existsb (String.eqb s) l.

(** [_WHATWG_C0_CONTROL_OR_SPACE] *)
Definition c0_or_space (c : ascii) : bool := (nat_of_ascii c <=? 32)%nat.

(** [_UNSAFE_URL_BYTES_TO_REMOVE = ['\t', '\r', '\n']] *)
Definition unsafe_url_byte (c : ascii) : bool :=
  let n := nat_of_ascii c in ((n =? 9) || (n =? 13) || (n =? 10))%nat.

Definition is_ascii_alpha (c : ascii) : bool :=
  let n := nat_of_ascii c in
  (((65 <=? n) && (n <=? 90)) || ((97 <=? n) && (n <=? 122)))%nat.

Definition is_ascii_digit (c : ascii) : bool :=
  let n := nat_of_ascii c in ((48 <=? n) && (n <=? 57))%nat.

(** [scheme_chars]: letters, digits and "+-." *)
Definition scheme_char (c : ascii) : bool :=
  is_ascii_alpha c || is_ascii_digit c
  || Ascii.eqb c "+" || Ascii.eqb c "-" || Ascii.eqb c ".".

Record SplitResult := {
  sr_scheme : string; sr_netloc : string; sr_path : string;
  sr_query : string; sr_fragment : string }.

Record ParseResult := {
  pr_scheme : string; pr_netloc : string; pr_path : string;
  pr_params : string; pr_query : string; pr_fragment : string }.

(** [_splitnetloc(url, start)] *)
Definition splitnetloc (url : string) (start : nat) : string * string :=
  let delim :=
    fold_left (fun d c => match py_find c url start with
                          | Some w => Nat.min d w
                          | None => d
                          end)
              ["/"; "?"; "#"]%char (String.length url) in
  (substring start (delim - start) url, py_drop delim url).

(** [urlsplit(url, scheme)]; the validation of the address inside
    brackets ([_check_bracketed_netloc]) and the NFKC check of
    [_checknetloc] are not modelled (they concern IPv6 literals and
    non-ASCII text). *)
Definition urlsplit (url scheme : string) : result SplitResult :=
  let url := remove_by unsafe_url_byte (lstrip_by c0_or_space url) in
  let scheme := remove_by unsafe_url_byte (strip_by c0_or_space scheme) in
  let '(scheme, url) :=
    match py_find ":" url 0, url with
    | Some i, String c0 _ =>
        if (0 <? i)%nat && is_ascii_alpha c0 && str_forallb scheme_char (py_take i url)
        then (py_lower (py_take i url), py_drop (S i) url)
        else (scheme, url)
    | _, _ => (scheme, url)
    end in
  let '(netloc, url) :=
    if String.eqb (py_take 2 url) "//" then splitnetloc url 2 else ("", url) in
  if (str_in "[" netloc && negb (str_in "]" netloc))
     || (str_in "]" netloc && negb (str_in "[" netloc))
  then raise (ValueError "Invalid IPv6 URL")
  else
    let '(url, fragment) :=
      match py_find "#" url 0 with
      | Some i => (py_take i url, py_drop (S i) url)
      | None => (url, "")
      end in
    let '(url, query) :=
      match py_find "?" url 0 with
      | Some i => (py_take i url, py_drop (S i) url)
      | None => (url, "")
      end in
    ret {| sr_scheme := scheme; sr_netloc := netloc; sr_path := url;
           sr_query := query; sr_fragment := fragment |}.

(** [_splitparams(url)] *)
Definition splitparams (url : string) : string * string :=
  let i :=
    if str_in "/" url
    then py_find ";" url (match py_rfind "/" url with Some j => j | None => 0%nat end)
    else py_find ";" url 0 in
  match i with
  | Some i => (py_take i url, py_drop (S i) url)
  | None => (url, "")
  end.

(** [urlparse(url, scheme)] *)
Definition urlparse (url scheme : string) : result ParseResult :=
  let* r := urlsplit url scheme in
  let '(path, params) :=
    if mem (sr_scheme r) uses_params && str_in ";" (sr_path r)
    then splitparams (sr_path r) else (sr_path r, "") in
  ret {| pr_scheme := sr_scheme r; pr_netloc := sr_netloc r; pr_path := path;
         pr_params := params; pr_query := sr_query r; pr_fragment := sr_fragment r |}.

(** [urlunsplit((scheme, netloc, url, query, fragment))] *)
Definition urlunsplit (scheme netloc url query fragment : string) : string :=
  let url :=
    if truthy netloc
       || (truthy scheme && mem scheme uses_netloc
           && negb (String.eqb (py_take 2 url) "//"))
    then "//" ++ netloc
         ++ (if truthy url && negb (String.eqb (py_take 1 url) "/") then "/" ++ url else url)
    else url in
  let url := if truthy scheme then scheme ++ ":" ++ url else url in
  let url := if truthy query then url ++ "?" ++ query else url in
  if truthy fragment then url ++ "#" ++ fragment else url.

(** [urlunparse((scheme, netloc, url, params, query, fragment))] *)
Definition urlunparse (scheme netloc url params query fragment : string) : string :=
  let url := if truthy params then url ++ ";" ++ params else url in
  urlunsplit scheme netloc url query fragment.

(** [segments[1:-1] = filter(None, segments[1:-1])] *)
Definition filter_middle (l : list string) : list string :=
  match l with
  | [] => []
  | x :: rest =>
      match rest with
      | [] => [x]
      | _ => x :: app (List.filter truthy (removelast rest)) [List.last rest ""]
      end
  end.

(** The loop over [segments] building [resolved_path]; the accumulator is
    [resolved_path] reversed. *)
Fixpoint resolve_dots (acc : list string) (segs : list string) : list string :=
  match segs with
  | [] => rev acc
  | seg :: segs' =>
      if String.eqb seg ".." then resolve_dots (tl acc) segs'
      else if String.eqb seg "." then resolve_dots acc segs'
      else resolve_dots (seg :: acc) segs'
  end.

(** [urljoin(base, url)] *)
Definition urljoin (base url : string) : result string :=
  if negb (truthy base) then ret url else
  if negb (truthy url) then ret base else (
  let* b := urlparse base "" in
  let* u := urlparse url (pr_scheme b) in
  let scheme := pr_scheme u in
  let path := pr_path u in
  let params := pr_params u in
  let query := pr_query u in
  let fragment := pr_fragment u in
  let join_with (netloc : string) : result string :=
    if negb (truthy path) && negb (truthy params) then
      let query := if truthy query then query else pr_query b in
      ret (urlunparse scheme netloc (pr_path b) (pr_params b) query fragment)
    else
      let base_parts := py_split "/" (pr_path b) in
      let base_parts :=
        if String.eqb (List.last base_parts "") "" then base_parts else removelast base_parts in
      let segments :=
        if String.eqb (py_take 1 path) "/" then py_split "/" path
        else filter_middle (app base_parts (py_split "/" path)) in
      let resolved := resolve_dots [] segments in
      let resolved :=
        if mem (List.last segments "") ["."; ".."] then app resolved [""] else resolved in
      let p := py_join "/" resolved in
      ret (urlunparse scheme netloc (if truthy p then p else "/") params query fragment) in
  if negb (String.eqb scheme (pr_scheme b)) || negb (mem scheme uses_relative)
  then ret url
  else if mem scheme uses_netloc then
    if truthy (pr_netloc u)
    then ret (urlunparse scheme (pr_netloc u) path params query fragment)
    else join_with (pr_netloc b)
  else join_with (pr_netloc u)).

(** ** Parsed documents (BeautifulSoup trees) *)

(** A node of the parsed tree: a text string ([NavigableString]) or an
    element ([Tag]) with its attribute dict and its children. *)
Inductive Node :=
| Text (s : string)
| Tag (tag_name : string) (attrs : list (string * string)) (children : list Node).

(** [_all_strings]: the text strings below a node, in document order. *)
Fixpoint all_strings (n : Node) : list string :=
  match n with
  | Text s => [s]
  | Tag _ _ cs =>
      (fix go (cs : list Node) : list string :=
         match cs with
         | [] => []
         | c :: cs' => app (all_strings c) (go cs')
         end) cs
  end.

Definition py_concat (l : list string) : string := String.concat "" l.

(** [node.get_text()]: the text content of the node. *)
Definition get_text (n : Node) : string := py_concat (all_strings n).

(** [node.get_text(strip=True)]: each string is stripped, empty results
    are skipped, the rest joined with the separator [""]. *)
Definition get_text_strip (n : Node) : string :=
  py_concat (List.filter truthy (map py_strip (all_strings n))).

(** [node.get(key, default)]; a text node has no attributes. *)
Definition tag_get (n : Node) (key default : string) : result string :=
  match n with
  | Tag _ attrs _ =>
      match find (fun kv => String.eqb (fst kv) key) attrs with
      | Some kv => ret (snd kv)
      | None => ret default
      end
  | Text _ => raise (OtherError "AttributeError")
  end.

(** ** Data model *)

(** [@dataclass SiteConfig] *)
Record SiteConfig := {
  name : string;
  url : string;
  item_selector : string;
  title_selector : string;
  link_selector : string;
  summary_selector : option string;
  base_url : option string }.

(** [SiteConfig(name, url, item_selector, title_selector)] with the
    defaults [link_selector="a"], [summary_selector=None], [base_url=None]. *)
Definition mk_site_config (name url item_selector title_selector : string) : SiteConfig :=
  {| name := name; url := url; item_selector := item_selector;
     title_selector := title_selector; link_selector := "a";
     summary_selector := None; base_url := None |}.

(** The dict [{"title": ..., "link": ..., "summary": ...}] *)
Record Item := { title : string; link : string; summary : string }.

Record Response := { status_code : Z; text : string }.

(** [response.raise_for_status()] *)
Definition raise_for_status (r : Response) : result unit :=
  if ((400 <=? status_code r) && (status_code r <? 600))%Z
  then raise (HTTPError (status_code r)) else ret tt.

(** [items[:limit]] *)
Definition py_slice_upto {A} (l : list A) (limit : Z) : list A :=
  if (0 <=? limit)%Z then take (Z.to_nat limit) l
  else take (length l - Z.to_nat (- limit)) l.

Definition opt_list {A} (o : option A) : list A :=
  match o with Some a => [a] | None => [] end.

(** [config.base_url or config.url] *)
Definition base_or_url (config : SiteConfig) : string :=
  match base_url config with
  | Some b => if truthy b then b else url config
  | None => url config
  end.

(** [posixpath.join(a, *ps)] *)
Definition os_path_join (a : string) (ps : list string) : string :=
  fold_left
    (fun path b =>
       if String.eqb (py_take 1 b) "/" then b
       else if negb (truthy path)
               || String.eqb (py_drop (String.length path - 1) path) "/"
       then path ++ b
       else path ++ "/" ++ b)
    ps a.

Definition nl : string := str1 (ascii_of_nat 10).

(** The header line written by [export_site_items]. *)
Definition render_header (site_name date hour : string) : string :=
  "# " ++ site_name ++ " 热门信息 (" ++ date ++ " " ++ hour ++ ":00)" ++ nl ++ nl.

(** One numbered entry written by [export_site_items]. *)
Definition render_item (idx : nat) (item : Item) : string :=
  pretty idx ++ ". [" ++ title item ++ "](" ++ link item ++ ")" ++ nl
  ++ (if truthy (summary item) then "   - 摘要：" ++ summary item ++ nl else "").

Fixpoint render_items (idx : nat) (items : list Item) : string :=
  match items with
  | [] => ""
  | item :: rest => render_item idx item ++ render_items (S idx) rest
  end.

Definition render_file (site_name date hour : string) (items : list Item) : string :=
  render_header site_name date hour ++ render_items 1 items.

(** ** The client: extraction, fetch and export *)

Section Client.

(** [BeautifulSoup(html, "html.parser")]; it may raise. *)
Variable soup_parse : string -> result Node.

(** [node.select(selector)]: the matching descendants in document order;
    it raises on a selector soupsieve rejects. *)
Variable css_select : string -> Node -> result (list Node).

(** [node.select_one(selector)] *)
Definition select_one (sel : string) (n : Node) : result (option Node) :=
  let* l := css_select sel n in ret (hd_error l).

(** Line 105: [node.select_one(config.link_selector) if config.link_selector else title_node] *)
Definition link_node_of (config : SiteConfig) (node title_node : Node) : result (option Node) :=
  if truthy (link_selector config) then select_one (link_selector config) node
  else ret (Some title_node).

(** Lines 106-111: the raw link of the link node. *)
Definition raw_link_of (link_node : option Node) : result string :=
  match link_node with
  | None => ret ""
  | Some ln =>
      let* href := tag_get ln "href" "" in
      let raw_link := py_strip href in
      if truthy raw_link then ret raw_link else ret (get_text_strip ln)
  end.

(** Line 112 *)
Definition resolve_link (config : SiteConfig) (raw_link : string) : result string :=
  if truthy raw_link then urljoin (base_or_url config) raw_link else ret "".

(** Lines 115-119 *)
Definition summary_of (config : SiteConfig) (node : Node) : result string :=
  match summary_selector config with
  | Some sel =>
      if truthy sel then
        let* summary_node := select_one sel node in
        ret (match summary_node with Some sn => get_text_strip sn | None => "" end)
      else ret ""
  | None => ret ""
  end.

(** Lines 101-128: the body of the loop over [item_nodes]; [None] is a
    [continue] or a dropped item. *)
Definition parse_node (config : SiteConfig) (node : Node) : result (option Item) :=
  let* title_node := select_one (title_selector config) node in
  match title_node with
  | None => ret None
  | Some title_node =>
      let* link_node := link_node_of config node title_node in
      let* raw_link := raw_link_of link_node in
      let* full_link := resolve_link config raw_link in
      let title := get_text_strip title_node in
      let* summary := summary_of config node in
      ret (if truthy title
           then Some {| title := title; link := full_link; summary := summary |}
           else None)
  end.

Fixpoint parse_nodes (config : SiteConfig) (nodes : list Node) : result (list Item) :=
  match nodes with
  | [] => ret []
  | node :: rest =>
      let* o := parse_node config node in
      let* parsed_rest := parse_nodes config rest in
      ret (app (opt_list o) parsed_rest)
  end.

(** [_parse_items(html, config)] *)
Definition parse_items (html : string) (config : SiteConfig) : result (list Item) :=
  let* soup := soup_parse html in
  let* item_nodes := css_select (item_selector config) soup in
  parse_nodes config item_nodes.

(** Lines 86-90: the [try] block of [fetch_site_items]; [session_get]
    is [self.session.get] on a URL, which may raise. *)
Definition fetch_body (session_get : string -> result Response)
    (config : SiteConfig) (limit : Z) : result (list Item) :=
  let* response := session_get (url config) in
  let* _ := raise_for_status response in
  let* items := parse_items (text response) config in
  ret (py_slice_upto items limit).

(** [fetch_site_items(site_name, limit)] *)
Definition fetch_site_items (session_get : string -> result Response)
    (site_configs : gmap string SiteConfig) (site_name : string) (limit : Z)
    : result (list Item) :=
  match site_configs !! site_name with
  | None => raise (ValueError ("未找到站点配置: " ++ site_name))
  | Some config =>
      match fetch_body session_get config limit with
      | inl _ => ret []
      | inr items => ret items
      end
  end.

(** [export_site_items(site_name, date, hour)]; [now_date] and [now_hour]
    are [datetime.now()] formatted, [fs] maps the path of each written
    file to its content. The result is the returned path and the files
    afterwards. *)
Definition export_site_items (session_get : string -> result Response)
    (site_configs : gmap string SiteConfig) (now_date now_hour : string)
    (fs : gmap string string) (site_name : string) (date hour : option string)
    : result (option string) * gmap string string :=
  match fetch_site_items session_get site_configs site_name 30 with
  | inl (ValueError _) => (ret None, fs)
  | inl e => (raise e, fs)
  | inr [] => (ret None, fs)
  | inr items =>
      let date := match date with Some d => d | None => now_date end in
      let hour := match hour with Some h => h | None => now_hour end in
      let dir_path := os_path_join "custom_sites" [site_name; date] in
      let file_path := os_path_join dir_path [hour ++ ".md"] in
      (ret (Some file_path), <[file_path := render_file site_name date hour items]> fs)
  end.

(** ** The ad-hoc registration path of [gradio_server.py] *)

(** [x or ""] for a text input that may be [None] *)
Definition or_empty (o : option string) : string :=
  match o with Some s => s | None => "" end.

(** [_normalize_site_name(raw_name, fallback_url)] *)
Definition normalize_site_name (raw_name : option string) (fallback_url : string) : result string :=
  let nm := py_lower (py_strip (or_empty raw_name)) in
  let* nm :=
    if truthy nm then ret nm
    else (let* parsed := urlparse fallback_url "" in
          ret (py_replace "." "_" (pr_netloc parsed))) in
  ret (py_replace " " "_" nm).

(** Lines 77-87: the [SiteConfig] registered for an ad-hoc source. *)
Definition adhoc_config (chosen_site : string) (parsed_url : ParseResult)
    (custom_site_url custom_item_selector custom_title_selector custom_link_selector
     custom_summary_selector custom_base_url : option string) : SiteConfig :=
  let resolved_base_url :=
    let b := py_strip (or_empty custom_base_url) in
    if truthy b then b
    else pr_scheme parsed_url ++ "://" ++ pr_netloc parsed_url in
  {| name := chosen_site;
     url := py_strip (or_empty custom_site_url);
     item_selector := py_strip (or_empty custom_item_selector);
     title_selector := py_strip (or_empty custom_title_selector);
     link_selector :=
       py_strip (let l := or_empty custom_link_selector in
                 if truthy l then l else "a");
     summary_selector :=
       (let s := py_strip (or_empty custom_summary_selector) in
        if truthy s then Some s else None);
     base_url := Some resolved_base_url |}.

(** What [generate_custom_site_report] returns: a message to the user,
    or the call [report_generator.generate_custom_site_report(path, site)]
    (the report generator itself is out of scope). *)
Inductive ReportOutcome :=
| Message (msg : string)
| Report (markdown_file_path : string) (chosen_site : string).

(** Lines 92-97: export the chosen site and hand the file to the report generator. *)
Definition export_and_report (session_get : string -> result Response)
    (site_configs : gmap string SiteConfig) (now_date now_hour : string)
    (fs : gmap string string) (chosen_site : string)
    : result ReportOutcome * gmap string string :=
  let '(r, fs') := export_site_items session_get site_configs now_date now_hour fs
                     chosen_site None None in
  match r with
  | inl e => (raise e, fs')
  | inr None => (ret (Message "未抓取到可用数据，请检查站点规则或稍后重试。"), fs')
  | inr (Some path) => (ret (Report path chosen_site), fs')
  end.

(** [generate_custom_site_report(...)] from line 68 on: the result, the
    registry [custom_site_client.site_configs] and the files afterwards. *)
Definition generate_custom_site_report (session_get : string -> result Response)
    (site_configs : gmap string SiteConfig) (now_date now_hour : string)
    (fs : gmap string string)
    (site_name custom_site_name custom_site_url custom_item_selector
     custom_title_selector custom_link_selector custom_summary_selector
     custom_base_url : option string)
    : result ReportOutcome * (gmap string SiteConfig * gmap string string) :=
  if truthy (or_empty custom_site_url) && truthy (or_empty custom_item_selector)
     && truthy (or_empty custom_title_selector) then
    match urlparse (py_strip (or_empty custom_site_url)) "" with
    | inl e => (raise e, (site_configs, fs))
    | inr parsed_url =>
        if negb (truthy (pr_scheme parsed_url)) || negb (truthy (pr_netloc parsed_url)) then
          (ret (Message "临时站点 URL 无效，请输入完整地址（如 https://example.com）。"),
           (site_configs, fs))
        else
          match normalize_site_name custom_site_name (or_empty custom_site_url) with
          | inl e => (raise e, (site_configs, fs))
          | inr chosen_site =>
              let config :=
                adhoc_config chosen_site parsed_url custom_site_url custom_item_selector
                  custom_title_selector custom_link_selector custom_summary_selector
                  custom_base_url in
              let site_configs' := <[name config := config]> site_configs in
              let '(r, fs') := export_and_report session_get site_configs' now_date now_hour
                                 fs chosen_site in
              (r, (site_configs', fs'))
          end
    end
  else if negb (truthy (or_empty site_name)) then
    (ret (Message "请选择内置站点，或填写临时站点 URL 与选择器。"), (site_configs, fs))
  else
    let '(r, fs') := export_and_report session_get site_configs now_date now_hour fs
                       (or_empty site_name) in
    (r, (site_configs, fs')).

End Client.

(** ** The registry as a Python dict: insertion-ordered

    [self.site_configs] is a dict: [d[k] = v] replaces the value of an
    existing key in place and appends a new key at the end, and
    [list(d.keys())] lists the keys in that order. The [gmap] used by
    [fetch_site_items] above is [od_to_map] of it. *)

Definition odict (V : Type) : Type := list (string * V).

(** [d[k] = v] *)
Fixpoint od_setitem {V} (k : string) (v : V) (d : odict V) : odict V :=
  match d with
  | [] => [(k, v)]
  | (k', v') :: rest =>
      if String.eqb k' k then (k', v) :: rest else (k', v') :: od_setitem k v rest
  end.

(** [d.get(k)] *)
Fixpoint od_get {V} (k : string) (d : odict V) : option V :=
  match d with
  | [] => None
  | (k', v') :: rest => if String.eqb k' k then Some v' else od_get k rest
  end.

Definition od_keys {V} (d : odict V) : list string := map fst d.

Definition od_to_map {V} (d : odict V) : gmap string V := list_to_map d.

(** [register_site(config)] *)
Definition register_site (site_configs : odict SiteConfig) (config : SiteConfig)
  : odict SiteConfig :=
  od_setitem (name config) config site_configs.

(** [list_sites()] *)
Definition list_sites (site_configs : odict SiteConfig) : list string :=
  od_keys site_configs.

(** [has_site(site_name)]: [site_name in self.site_configs] *)
Definition has_site (site_configs : odict SiteConfig) (site_name : string) : bool :=
  existsb (String.eqb site_name) (od_keys site_configs).

(** [_register_builtin_sites()] *)
Definition openai_blog : SiteConfig :=
  {| name := "openai_blog"; url := "https://openai.com/news/rss.xml";
     item_selector := "item"; title_selector := "title"; link_selector := "link";
     summary_selector := Some "description"; base_url := Some "https://openai.com" |}.

Definition openai_research : SiteConfig :=
  {| name := "openai_research"; url := "https://openai.com/research/rss.xml";
     item_selector := "item"; title_selector := "title"; link_selector := "link";
     summary_selector := Some "description"; base_url := Some "https://openai.com" |}.

(** The registry of a fresh [CustomSiteClient()]. *)
Definition builtin_site_configs : odict SiteConfig :=
  register_site (register_site [] openai_blog) openai_research.

(** [s.startswith("/")] and [s.endswith("/")], as tested by [posixpath.join] *)
Definition starts_slash (s : string) : bool := String.eqb (py_take 1 s) "/".
Definition ends_slash (s : string) : bool :=
  String.eqb (py_drop (String.length s - 1) s) "/".

(** ** A concrete selector engine: tag-name selectors

    Used to run the model on concrete documents: [select(t)] returns the
    descendants whose tag name is [t], in document order. *)

Fixpoint descendants (n : Node) : list Node :=
  match n with
  | Text _ => []
  | Tag _ _ cs =>
      (fix go (cs : list Node) : list Node :=
         match cs with
         | [] => []
         | c :: cs' => c :: app (descendants c) (go cs')
         end) cs
  end.

Definition has_tag (t : string) (n : Node) : bool :=
  match n with Tag nm _ _ => String.eqb nm t | Text _ => false end.

Definition tag_select (sel : string) (n : Node) : result (list Node) :=
  ret (List.filter (has_tag sel) (descendants n)).

(** Concrete inputs: the RSS and HTML scenarios of the spec, parsed. *)

Definition rss_item (n : string) : Node :=
  Tag "item" []
    [Tag "title" [] [Text "T"];
     Tag "link" [] [Text (" https://x/" ++ n ++ " ")];
     Tag "description" [] [Text "D"]].

Definition rss_doc : Node :=
  Tag "[document]" [] [Tag "channel" [] [rss_item "1"; rss_item "2"; rss_item "3"]].

Definition rss_cfg : SiteConfig :=
  {| name := "rss"; url := "https://x/feed.xml"; item_selector := "item";
     title_selector := "title"; link_selector := "link";
     summary_selector := Some "description"; base_url := None |}.

Definition html_doc : Node :=
  Tag "[document]" []
    [Tag "div" [("class", "news-item")]
       [Tag "a" [("class", "title"); ("href", "/p1")] [Text "Hello"]]].

Definition html_cfg : SiteConfig :=
  {| name := "site"; url := "https://site.com/list"; item_selector := "div";
     title_selector := "a"; link_selector := "a"; summary_selector := None;
     base_url := Some "https://site.com" |}.

(** A parser that always yields [doc], and a server that always answers 200. *)
Definition parse_to (doc : Node) : string -> result Node := fun _ => ret doc.
Definition serve_ok : string -> result Response :=
  fun _ => ret {| status_code := 200; text := "" |}.

(** Items whose text is split over several text strings, an absolute link
    with an upper-case scheme, and a source without [base_url] whose URL
    has a directory part. *)

Definition split_text_doc : Node :=
  Tag "[document]" []
    [Tag "item" []
       [Tag "title" [] [Text "Hello "; Tag "b" [] [Text "world"]];
        Tag "link" [] [Text "https://x/a "; Tag "b" [] [Text "b"]]]].

Definition abs_link_doc : Node :=
  Tag "[document]" []
    [Tag "div" [] [Tag "a" [("href", "HTTPS://other.com/x")] [Text "Hello"]]].

Definition dir_cfg : SiteConfig :=
  {| name := "dir"; url := "https://example.com/dir/page.xml"; item_selector := "div";
     title_selector := "a"; link_selector := "a"; summary_selector := None;
     base_url := None |}.

Definition rel_link_doc : Node :=
  Tag "[document]" [] [Tag "div" [] [Tag "a" [("href", "a/b")] [Text "A"]]].

(** The items of [rss_doc] under [rss_cfg]. *)
Definition rss_items : list Item :=
  map (fun n => {| title := "T"; link := "https://x/" ++ n; summary := "D" |}) ["1"; "2"; "3"].

(** An RSS item whose link [urljoin] refuses, after a well-formed one. *)
Definition bad_link_item : Node :=
  Tag "item" [] [Tag "title" [] [Text "T"]; Tag "link" [] [Text "http://[bad"]].

Definition bad_link_doc : Node := Tag "[document]" [] [rss_item "1"; bad_link_item].

(** Fifty identical RSS items, a registry holding the RSS source, and a
    server that always fails. *)

Definition many_doc : Node := Tag "[document]" [] (repeat (rss_item "1") 50).

Definition items50 : list Item :=
  repeat {| title := "T"; link := "https://x/1"; summary := "D" |} 50.

Definition rss_registry : gmap string SiteConfig := <["rss" := rss_cfg]> ∅.

Definition serve_timeout : string -> result Response :=
  fun _ => raise (RequestException "timed out").

(** ** Lemmas: stripping and [get_text(strip=True)] *)

Lemma lstrip_by_empty p s : lstrip_by p s = "" <-> str_forallb p s = true.
Proof.
  induction s as [|c s IH]; simpl; [tauto|].
  destruct (p c); simpl; [exact IH | split; discriminate].
Qed.

Lemma lstrip_by_forallb p s : str_forallb p (lstrip_by p s) = true -> lstrip_by p s = "".
Proof.
  induction s as [|c s IH]; simpl; [auto|].
  destruct (p c) eqn:Pc; [exact IH|]. simpl. rewrite Pc. discriminate.
Qed.

Lemma rstrip_by_empty p s : rstrip_by p s = "" <-> str_forallb p s = true.
Proof.
  induction s as [|c s IH]; simpl; [tauto|].
  destruct (rstrip_by p s) as [|a r] eqn:E.
  - assert (Hs : str_forallb p s = true) by (apply IH; reflexivity).
    rewrite Hs, andb_true_r. unfold str1.
    destruct (p c); split; intros; (reflexivity || discriminate).
  - assert (Hs : str_forallb p s = false).
    { destruct (str_forallb p s) eqn:F; [|reflexivity]. discriminate (proj2 IH eq_refl). }
    rewrite Hs, andb_false_r. split; discriminate.
Qed.

Lemma strip_by_empty p s : strip_by p s = "" <-> str_forallb p s = true.
Proof.
  unfold strip_by. rewrite rstrip_by_empty. split.
  - intros H. apply lstrip_by_empty. now apply lstrip_by_forallb.
  - intros H. rewrite (proj2 (lstrip_by_empty p s) H). reflexivity.
Qed.

Lemma append_cons c s1 s2 : String c s1 ++ s2 = String c (s1 ++ s2).
Proof. reflexivity. Qed.

Lemma str_forallb_app p s1 s2 :
  str_forallb p (s1 ++ s2) = str_forallb p s1 && str_forallb p s2.
Proof.
  induction s1 as [|c s1 IH]; [reflexivity|].
  rewrite append_cons. simpl. rewrite IH. apply andb_assoc.
Qed.

Lemma append_empty_r s : s ++ "" = s.
Proof. induction s as [|c s IH]; [reflexivity | exact (f_equal (String c) IH)]. Qed.

Lemma py_concat_cons x l : py_concat (x :: l) = x ++ py_concat l.
Proof.
  unfold py_concat. destruct l as [|y l]; simpl; [now rewrite append_empty_r | reflexivity].
Qed.

Lemma py_concat_forallb p l :
  str_forallb p (py_concat l) = forallb (str_forallb p) l.
Proof.
  induction l as [|x l IH]; [reflexivity|].
  rewrite py_concat_cons, str_forallb_app, IH. reflexivity.
Qed.

Lemma append_nonempty_l s1 s2 : s1 <> "" -> s1 ++ s2 <> "".
Proof. destruct s1; [congruence | rewrite append_cons; discriminate]. Qed.

Lemma truthy_false s : truthy s = false <-> s = "".
Proof.
  unfold truthy. rewrite negb_false_iff, String.eqb_eq. tauto.
Qed.

Lemma truthy_true s : truthy s = true <-> s <> "".
Proof.
  unfold truthy. rewrite negb_true_iff, <- not_true_iff_false, String.eqb_eq. tauto.
Qed.

Lemma stripped_concat_empty l :
  py_concat (List.filter truthy (map py_strip l)) = ""
  <-> forallb (str_forallb py_isspace) l = true.
Proof.
  induction l as [|x l IH]; simpl; [tauto|].
  destruct (truthy (py_strip x)) eqn:T.
  - apply truthy_true in T.
    assert (Hx : str_forallb py_isspace x = false).
    { destruct (str_forallb py_isspace x) eqn:F; [|reflexivity].
      exfalso. apply T. now apply strip_by_empty. }
    rewrite Hx, py_concat_cons. simpl.
    split; [intros E; exfalso; exact (append_nonempty_l _ _ T E) | discriminate].
  - apply truthy_false, strip_by_empty in T. rewrite T. exact IH.
Qed.

(** [get_text(strip=True)] is empty exactly when the text content of the
    node is whitespace only. *)
Lemma get_text_strip_empty n : get_text_strip n = "" <-> py_strip (get_text n) = "".
Proof.
  unfold get_text_strip, get_text, py_strip.
  rewrite stripped_concat_empty, strip_by_empty, py_concat_forallb. tauto.
Qed.

(** On a node holding one text string, [get_text(strip=True)] strips it. *)
Lemma get_text_strip_single n s : all_strings n = [s] -> get_text_strip n = py_strip s.
Proof.
  intros H. unfold get_text_strip. rewrite H. simpl.
  destruct (truthy (py_strip s)) eqn:T; [reflexivity|].
  apply truthy_false in T. now rewrite T.
Qed.

(** ** Lemmas: one item node, and the loop over the item nodes *)

Section Extractor.

Variable soup_parse : string -> result Node.
Variable css_select : string -> Node -> result (list Node).

Lemma parse_node_some config node item :
  parse_node css_select config node = ret (Some item) ->
  exists title_node link_node raw_link,
    select_one css_select (title_selector config) node = ret (Some title_node) /\
    link_node_of css_select config node title_node = ret link_node /\
    raw_link_of link_node = ret raw_link /\
    resolve_link config raw_link = ret (link item) /\
    summary_of css_select config node = ret (summary item) /\
    title item = get_text_strip title_node /\
    title item <> "".
Proof.
  unfold parse_node, bind.
  destruct (select_one css_select (title_selector config) node) as [e|[tn|]] eqn:E1;
    try discriminate.
  destruct (link_node_of css_select config node tn) as [e|ln] eqn:E2; try discriminate.
  destruct (raw_link_of ln) as [e|raw] eqn:E3; try discriminate.
  destruct (resolve_link config raw) as [e|fl] eqn:E4; try discriminate.
  destruct (summary_of css_select config node) as [e|sm] eqn:E5; try discriminate.
  destruct (truthy (get_text_strip tn)) eqn:T; intros H; inversion H; subst.
  exists tn, ln, raw. simpl. repeat split; auto. now apply truthy_true.
Qed.

Lemma parse_nodes_spec config nodes items :
  parse_nodes css_select config nodes = ret items <->
  exists os, Forall2 (fun n o => parse_node css_select config n = ret o) nodes os /\
             items = List.concat (map opt_list os).
Proof.
  revert items. induction nodes as [|n ns IH]; intros items; simpl.
  - split.
    + intros H. inversion H. exists []. split; [constructor | reflexivity].
    + intros [os [HF ->]]. inversion HF. reflexivity.
  - unfold bind. split.
    + destruct (parse_node css_select config n) as [e|o] eqn:E; [discriminate|].
      destruct (parse_nodes css_select config ns) as [e|r] eqn:R; [discriminate|].
      intros H. inversion H; subst.
      destruct (proj1 (IH r) eq_refl) as [os [HF Hr]].
      exists (o :: os). split; [constructor; auto | simpl; now rewrite Hr].
    + intros [os [HF ->]]. inversion HF as [|? o ? os' Ho HF']; subst.
      rewrite Ho. rewrite (proj2 (IH _) (ex_intro _ os' (conj HF' eq_refl))).
      reflexivity.
Qed.

End Extractor.

(** ** Lemmas: site-name normalisation *)

Lemma is_upper_lower_char c : is_upper (lower_char c) = false.
Proof. destruct c as [[] [] [] [] [] [] [] []]; reflexivity. Qed.

Lemma is_upper_not_space c : is_upper c && py_isspace c = false.
Proof. destruct c as [[] [] [] [] [] [] [] []]; reflexivity. Qed.

Lemma no_upper_lower s : str_existsb is_upper (py_lower s) = false.
Proof. induction s as [|c s IH]; simpl; [reflexivity|]. now rewrite is_upper_lower_char, IH. Qed.

Lemma py_replace_cons c r d s :
  py_replace c r (String d s)
  = if Ascii.eqb c d then r ++ py_replace c r s else String d (py_replace c r s).
Proof. reflexivity. Qed.

Lemma replace_space_no_space s : str_in " " (py_replace " " "_" s) = false.
Proof.
  induction s as [|c s IH]; [reflexivity|].
  rewrite py_replace_cons. destruct (Ascii.eqb " " c) eqn:E.
  - exact IH.
  - change (Ascii.eqb " " c || str_in " " (py_replace " " "_" s) = false).
    now rewrite E, IH.
Qed.

Lemma replace_space_no_upper s :
  str_existsb is_upper s = false -> str_existsb is_upper (py_replace " " "_" s) = false.
Proof.
  induction s as [|c s IH]; [reflexivity|].
  intros H. change (is_upper c || str_existsb is_upper s = false) in H.
  apply orb_false_iff in H as [Hc Hs].
  rewrite py_replace_cons. destruct (Ascii.eqb " " c).
  - exact (IH Hs).
  - change (is_upper c || str_existsb is_upper (py_replace " " "_" s) = false).
    now rewrite Hc, (IH Hs).
Qed.

Lemma replace_space_nonempty s : s <> "" -> py_replace " " "_" s <> "".
Proof.
  destruct s as [|c s]; [congruence|]. intros _.
  rewrite py_replace_cons. destruct (Ascii.eqb " " c); [|discriminate].
  change (String "_" (py_replace " " "_" s) <> ""). discriminate.
Qed.

Lemma replace_dot_nonempty s : s <> "" -> py_replace "." "_" s <> "".
Proof.
  destruct s as [|c s]; [congruence|]. intros _.
  rewrite py_replace_cons. destruct (Ascii.eqb "." c); [|discriminate].
  change (String "_" (py_replace "." "_" s) <> ""). discriminate.
Qed.

Lemma lower_empty s : py_lower s = "" -> s = "".
Proof. destruct s; simpl; congruence. Qed.

Lemma upper_not_blank s : str_existsb is_upper s = true -> py_strip s <> "".
Proof.
  intros Hu Hs. apply strip_by_empty in Hs.
  induction s as [|c s IH]; simpl in *; [discriminate|].
  apply andb_true_iff in Hs as [Hc Hs]. apply orb_true_iff in Hu as [Hu|Hu].
  - pose proof (is_upper_not_space c) as N. rewrite Hu, Hc in N. discriminate.
  - exact (IH Hu Hs).
Qed.

(** The two cases of [_normalize_site_name]. *)
Lemma normalize_site_name_cases raw_name fallback_url :
  normalize_site_name raw_name fallback_url =
    let nm := py_lower (py_strip (or_empty raw_name)) in
    if truthy nm then ret (py_replace " " "_" nm)
    else (let* parsed := urlparse fallback_url "" in
          ret (py_replace " " "_" (py_replace "." "_" (pr_netloc parsed)))).
Proof.
  unfold normalize_site_name, bind. simpl.
  destruct (truthy _); [reflexivity|].
  destruct (urlparse fallback_url ""); reflexivity.
Qed.

(** ** Claims *)

(** C1 (title gate): an item node with no match for [title_selector], or
    whose title text is empty after trimming, yields no item; every item
    returned by [_parse_items] has a non-empty title. *)
Theorem parse_items_title_gate (soup_parse : string -> result Node)
    (css_select : string -> Node -> result (list Node)) :
  (forall config node,
     select_one css_select (title_selector config) node = ret None ->
     parse_node css_select config node = ret None) /\
  (forall config node title_node,
     select_one css_select (title_selector config) node = ret (Some title_node) ->
     py_strip (get_text title_node) = "" ->
     forall item, parse_node css_select config node <> ret (Some item)) /\
  (forall html config items,
     parse_items soup_parse css_select html config = ret items ->
     Forall (fun item => title item <> "") items).
Proof.
  split; [|split].
  - intros config node H. unfold parse_node, bind. rewrite H. reflexivity.
  - intros config node tn H Hs item Hp.
    destruct (parse_node_some _ _ _ _ Hp)
      as (tn' & ln & raw & Ht & _ & _ & _ & _ & Htitle & Hne).
    rewrite H in Ht. inversion Ht; subst tn'.
    apply Hne. rewrite Htitle. now apply get_text_strip_empty.
  - intros html config items H. unfold parse_items, bind in H.
    destruct (soup_parse html) as [e|soup]; [discriminate|].
    destruct (css_select (item_selector config) soup) as [e|nodes]; [discriminate|].
    apply parse_nodes_spec in H. destruct H as [os [HF ->]].
    induction HF as [|n o ns os Ho HF IH]; simpl; [constructor|].
    apply Forall_app. split; [|exact IH].
    destruct o as [item|]; simpl; [|constructor].
    constructor; [|constructor].
    destruct (parse_node_some _ _ _ _ Ho) as (? & ? & ? & _ & _ & _ & _ & _ & _ & Hne).
    exact Hne.
Qed.

Lemma parse_items_title_gate_witness :
  (select_one tag_select "title" (Tag "item" [] [Tag "link" [] [Text "u"]]) = ret None /\
   parse_node tag_select rss_cfg (Tag "item" [] [Tag "link" [] [Text "u"]]) = ret None) /\
  (select_one tag_select "title" (Tag "item" [] [Tag "title" [] [Text "  "]])
     = ret (Some (Tag "title" [] [Text "  "])) /\
   py_strip (get_text (Tag "title" [] [Text "  "])) = "" /\
   forall item, parse_node tag_select rss_cfg (Tag "item" [] [Tag "title" [] [Text "  "]])
                  <> ret (Some item)) /\
  (parse_items (parse_to rss_doc) tag_select "" rss_cfg
     = ret [{| title := "T"; link := "https://x/1"; summary := "D" |};
            {| title := "T"; link := "https://x/2"; summary := "D" |};
            {| title := "T"; link := "https://x/3"; summary := "D" |}] /\
   Forall (fun item => title item <> "")
     [{| title := "T"; link := "https://x/1"; summary := "D" |};
      {| title := "T"; link := "https://x/2"; summary := "D" |};
      {| title := "T"; link := "https://x/3"; summary := "D" |}]).
Proof.
  destruct (parse_items_title_gate (parse_to rss_doc) tag_select) as (G1 & G2 & G3).
  split; [|split].
  - split; [reflexivity|]. apply G1. reflexivity.
  - split; [reflexivity|]. split; [reflexivity|].
    apply (G2 rss_cfg _ (Tag "title" [] [Text "  "])); reflexivity.
  - split; [vm_compute; reflexivity|]. apply (G3 "" rss_cfg). vm_compute. reflexivity.
Defined.

(** C5 (order preservation): the items returned by [_parse_items] are the
    results of the loop body on the item nodes, concatenated in the order in
    which the selector returned the nodes (document order); no sorting and
    no deduplication take place. *)
Theorem parse_items_document_order (soup_parse : string -> result Node)
    (css_select : string -> Node -> result (list Node))
    html config soup (item_nodes : list Node) (items : list Item) :
  soup_parse html = ret soup ->
  css_select (item_selector config) soup = ret item_nodes ->
  parse_items soup_parse css_select html config = ret items <->
  exists os, Forall2 (fun n o => parse_node css_select config n = ret o) item_nodes os /\
             items = List.concat (map opt_list os).
Proof.
  intros Hs Hn. unfold parse_items, bind. rewrite Hs, Hn.
  apply parse_nodes_spec.
Qed.

Lemma parse_items_document_order_witness :
  parse_items (parse_to (Tag "[document]" [] [rss_item "1"; rss_item "1"]))
    tag_select "" rss_cfg
  = ret [{| title := "T"; link := "https://x/1"; summary := "D" |};
         {| title := "T"; link := "https://x/1"; summary := "D" |}].
Proof.
  apply (proj2 (parse_items_document_order
                  (parse_to (Tag "[document]" [] [rss_item "1"; rss_item "1"]))
                  tag_select "" rss_cfg
                  (Tag "[document]" [] [rss_item "1"; rss_item "1"])
                  [rss_item "1"; rss_item "1"] _ eq_refl eq_refl)).
  exists [Some {| title := "T"; link := "https://x/1"; summary := "D" |};
          Some {| title := "T"; link := "https://x/1"; summary := "D" |}].
  split; [|reflexivity].
  constructor; [vm_compute; reflexivity|].
  constructor; [vm_compute; reflexivity|]. constructor.
Defined.

(** C2, counterexample: the text fallback of the link is not the trimmed
    text content of the link node when its text is split over several
    strings. *)
Lemma link_text_fallback_counterexample :
  parse_items (parse_to split_text_doc) tag_select "" rss_cfg
    = ret [{| title := "Helloworld"; link := "https://x/ab"; summary := "" |}] /\
  py_strip (get_text (Tag "link" [] [Text "https://x/a "; Tag "b" [] [Text "b"]]))
    = "https://x/a b" /\
  raw_link_of (Some (Tag "link" [] [Text "https://x/a "; Tag "b" [] [Text "b"]]))
    = ret "https://x/ab".
Proof. split; [|split]; vm_compute; reflexivity. Qed.

(** C2 (amended): the link node is the first match of [link_selector], or
    the title node when [link_selector] is empty; the raw link is the
    stripped [href] when that is non-empty, else [get_text(strip=True)] of
    the link node, which is its trimmed text when the node holds one text
    string; without a link node the raw link is empty. *)
Theorem link_extraction (css_select : string -> Node -> result (list Node)) :
  (forall config node title_node,
     link_node_of css_select config node title_node =
       if String.eqb (link_selector config) "" then ret (Some title_node)
       else (let* matches := css_select (link_selector config) node in
             ret (hd_error matches))) /\
  raw_link_of None = ret "" /\
  (forall tag attrs children,
     raw_link_of (Some (Tag tag attrs children)) =
       let href := match find (fun kv => String.eqb (fst kv) "href") attrs with
                   | Some kv => snd kv
                   | None => ""
                   end in
       ret (if truthy (py_strip href) then py_strip href
            else get_text_strip (Tag tag attrs children))) /\
  (forall tag attrs children s,
     find (fun kv => String.eqb (fst kv) "href") attrs = None ->
     all_strings (Tag tag attrs children) = [s] ->
     raw_link_of (Some (Tag tag attrs children)) = ret (py_strip s)).
Proof.
  split; [|split; [|split]].
  - intros config node tn. unfold link_node_of, select_one, truthy.
    destruct (String.eqb (link_selector config) ""); reflexivity.
  - reflexivity.
  - intros tag attrs children. unfold raw_link_of, tag_get, bind.
    destruct (find _ attrs) as [kv|];
      destruct (truthy (py_strip _)); reflexivity.
  - intros tag attrs children s Hf Hs. unfold raw_link_of, tag_get, bind.
    rewrite Hf. simpl. f_equal. now apply get_text_strip_single.
Qed.

Lemma link_extraction_witness :
  find (fun kv => String.eqb (fst kv) "href") ([] : list (string * string)) = None /\
  all_strings (Tag "link" [] [Text " https://example.com/feed-item "])
    = [" https://example.com/feed-item "] /\
  raw_link_of (Some (Tag "link" [] [Text " https://example.com/feed-item "]))
    = ret (py_strip " https://example.com/feed-item ").
Proof.
  split; [reflexivity|]. split; [reflexivity|].
  apply (proj2 (proj2 (proj2 (link_extraction tag_select))) "link" [] _ _);
    reflexivity.
Defined.

(** C9, counterexample: the extracted title is not the text content with
    only its ends trimmed: the space between two text strings is lost. *)
Lemma strip_only_counterexample :
  parse_items (parse_to split_text_doc) tag_select "" rss_cfg
    = ret [{| title := "Helloworld"; link := "https://x/ab"; summary := "" |}] /\
  py_strip (get_text (Tag "title" [] [Text "Hello "; Tag "b" [] [Text "world"]]))
    = "Hello world".
Proof. split; vm_compute; reflexivity. Qed.

(** C9 (amended): the text extracted for the title, the summary and the
    link fallback is [get_text(strip=True)]: the node's text strings, each
    stripped, empty ones dropped, concatenated. It is empty exactly when
    the text content is whitespace only, and on a node holding one text
    string it is that string trimmed, internal whitespace kept. *)
Theorem text_extraction_strip_fragments (css_select : string -> Node -> result (list Node)) :
  (forall n, get_text_strip n = py_concat (List.filter truthy (map py_strip (all_strings n)))) /\
  (forall n, get_text_strip n = "" <-> py_strip (get_text n) = "") /\
  (forall n s, all_strings n = [s] -> get_text_strip n = py_strip s) /\
  (forall config node item,
     parse_node css_select config node = ret (Some item) ->
     exists title_node,
       select_one css_select (title_selector config) node = ret (Some title_node) /\
       title item = get_text_strip title_node) /\
  (forall config node sel,
     summary_selector config = Some sel -> sel <> "" ->
     summary_of css_select config node =
       let* summary_node := select_one css_select sel node in
       ret (match summary_node with Some sn => get_text_strip sn | None => "" end)).
Proof.
  split; [reflexivity|]. split; [exact get_text_strip_empty|].
  split; [exact get_text_strip_single|]. split.
  - intros config node item H.
    destruct (parse_node_some _ _ _ _ H) as (tn & _ & _ & Ht & _ & _ & _ & _ & Htitle & _).
    eauto.
  - intros config node sel Hs Hne. unfold summary_of. rewrite Hs.
    apply truthy_true in Hne. rewrite Hne. reflexivity.
Qed.

Lemma text_extraction_strip_fragments_witness :
  all_strings (Tag "title" [] [Text "  two  words  "]) = ["  two  words  "] /\
  get_text_strip (Tag "title" [] [Text "  two  words  "]) = py_strip "  two  words  " /\
  py_strip "  two  words  " = "two  words".
Proof.
  split; [reflexivity|]. split; [|vm_compute; reflexivity].
  apply (proj1 (proj2 (proj2 (text_extraction_strip_fragments tag_select)))).
  reflexivity.
Defined.

(** C3, counterexample: an absolute raw link with an upper-case scheme does
    not pass through unchanged; [urljoin] re-assembles it. *)
Lemma link_resolution_counterexample :
  parse_items (parse_to abs_link_doc) tag_select "" html_cfg
    = ret [{| title := "Hello"; link := "https://other.com/x"; summary := "" |}] /\
  "https://other.com/x" <> "HTTPS://other.com/x".
Proof. split; [vm_compute; reflexivity | discriminate]. Qed.

(** C3 (amended): a non-empty raw link is resolved with [urljoin] against
    [base_url] when it is a non-empty string and against [url] otherwise;
    an empty raw link gives the empty link and the item is still emitted.
    The spec's two examples hold. *)
Theorem link_resolution (css_select : string -> Node -> result (list Node)) :
  (forall config b, base_url config = Some b -> b <> "" -> base_or_url config = b) /\
  (forall config, base_url config = None -> base_or_url config = url config) /\
  (forall config, base_url config = Some "" -> base_or_url config = url config) /\
  (forall config raw_link,
     raw_link <> "" -> resolve_link config raw_link = urljoin (base_or_url config) raw_link) /\
  (forall config, resolve_link config "" = ret "") /\
  (forall config node item,
     parse_node css_select config node = ret (Some item) ->
     exists title_node link_node raw_link,
       select_one css_select (title_selector config) node = ret (Some title_node) /\
       link_node_of css_select config node title_node = ret link_node /\
       raw_link_of link_node = ret raw_link /\
       ((raw_link = "" /\ link item = "") \/
        (raw_link <> "" /\ urljoin (base_or_url config) raw_link = ret (link item)))) /\
  (forall config node title_node link_node summary,
     select_one css_select (title_selector config) node = ret (Some title_node) ->
     link_node_of css_select config node title_node = ret link_node ->
     raw_link_of link_node = ret "" ->
     summary_of css_select config node = ret summary ->
     get_text_strip title_node <> "" ->
     parse_node css_select config node
       = ret (Some {| title := get_text_strip title_node; link := ""; summary := summary |})) /\
  urljoin "https://example.com" "/a/b" = ret "https://example.com/a/b" /\
  urljoin "https://example.com" "https://other.com/x" = ret "https://other.com/x".
Proof.
  split; [|split; [|split; [|split; [|split; [|split; [|split]]]]]].
  - intros config b Hb Hne. unfold base_or_url. rewrite Hb.
    apply truthy_true in Hne. now rewrite Hne.
  - intros config H. unfold base_or_url. now rewrite H.
  - intros config H. unfold base_or_url. now rewrite H.
  - intros config raw Hne. unfold resolve_link. apply truthy_true in Hne. now rewrite Hne.
  - reflexivity.
  - intros config node item H.
    destruct (parse_node_some _ _ _ _ H)
      as (tn & ln & raw & Ht & Hl & Hr & Hres & _ & _ & _).
    exists tn, ln, raw. repeat split; auto.
    unfold resolve_link in Hres. destruct (truthy raw) eqn:T.
    + right. split; [now apply truthy_true | exact Hres].
    + left. apply truthy_false in T. inversion Hres. auto.
  - intros config node tn ln sm Ht Hl Hr Hs Hne.
    unfold parse_node, bind. rewrite Ht, Hl, Hr. simpl. rewrite Hs.
    apply truthy_true in Hne. now rewrite Hne.
  - split; vm_compute; reflexivity.
Qed.

Lemma link_resolution_witness :
  resolve_link html_cfg "/p1" = urljoin "https://site.com" "/p1" /\
  resolve_link html_cfg "/p1" = ret "https://site.com/p1" /\
  parse_node tag_select rss_cfg (Tag "item" [] [Tag "title" [] [Text "Hello"]])
    = ret (Some {| title := "Hello"; link := ""; summary := "" |}).
Proof.
  destruct (link_resolution tag_select)
    as (B1 & B2 & B3 & R1 & R2 & P1 & P2 & E1 & E2).
  split; [|split].
  - rewrite (R1 html_cfg "/p1" ltac:(discriminate)).
    rewrite (B1 html_cfg "https://site.com" eq_refl ltac:(discriminate)). reflexivity.
  - vm_compute. reflexivity.
  - apply (P2 rss_cfg _ (Tag "title" [] [Text "Hello"]) None "");
      vm_compute; first [reflexivity | discriminate].
Defined.

(** C4, counterexample: without [base_url], a path-relative link is resolved
    against [url] itself (its directory), not against the origin of [url]. *)
Lemma default_base_counterexample :
  parse_items (parse_to rel_link_doc) tag_select "" dir_cfg
    = ret [{| title := "A"; link := "https://example.com/dir/a/b"; summary := "" |}] /\
  "https://example.com/dir/a/b" <> "https://example.com/a/b".
Proof. split; [vm_compute; reflexivity | discriminate]. Qed.

(** C4 (amended): without [base_url], a non-empty raw link is resolved with
    [urljoin] against [url] itself; a path-relative link is then taken
    relative to the directory of [url], a root-relative one relative to its
    origin. *)
Theorem default_base_is_url :
  (forall config raw_link,
     base_url config = None -> raw_link <> "" ->
     resolve_link config raw_link = urljoin (url config) raw_link) /\
  urljoin "https://example.com/dir/page.xml" "a/b" = ret "https://example.com/dir/a/b" /\
  urljoin "https://example.com/dir/page.xml" "/a/b" = ret "https://example.com/a/b".
Proof.
  split; [|split; vm_compute; reflexivity].
  intros config raw Hb Hne. unfold resolve_link, base_or_url. rewrite Hb.
  apply truthy_true in Hne. now rewrite Hne.
Qed.

Lemma default_base_is_url_witness :
  base_url dir_cfg = None /\ "a/b" <> "" /\
  resolve_link dir_cfg "a/b" = ret "https://example.com/dir/a/b".
Proof.
  split; [reflexivity|]. split; [discriminate|].
  rewrite (proj1 default_base_is_url dir_cfg "a/b" eq_refl ltac:(discriminate)).
  vm_compute. reflexivity.
Defined.

(** C6 (truncation): for a registered site whose fetch succeeds,
    [fetch_site_items] returns the first [min(n, limit)] items, in order;
    [export_site_items] fetches with the default limit 30 and writes the
    first 30 items to its file. *)
Theorem fetch_truncates (soup_parse : string -> result Node)
    (css_select : string -> Node -> result (list Node))
    (session_get : string -> result Response)
    (site_configs : gmap string SiteConfig) (site_name : string)
    (config : SiteConfig) (response : Response) (items : list Item) (limit : Z) :
  site_configs !! site_name = Some config ->
  session_get (url config) = ret response ->
  raise_for_status response = ret tt ->
  parse_items soup_parse css_select (text response) config = ret items ->
  (0 <= limit)%Z ->
  fetch_site_items soup_parse css_select session_get site_configs site_name limit
    = ret (take (Z.to_nat limit) items) /\
  length (take (Z.to_nat limit) items) = Nat.min (Z.to_nat limit) (length items) /\
  (forall now_date now_hour (fs : gmap string string) date hour,
     items <> [] ->
     let d := match date with Some d => d | None => now_date end in
     let h := match hour with Some h => h | None => now_hour end in
     let path := os_path_join (os_path_join "custom_sites" [site_name; d]) [h ++ ".md"] in
     export_site_items soup_parse css_select session_get site_configs now_date now_hour
       fs site_name date hour
     = (ret (Some path), <[path := render_file site_name d h (take 30 items)]> fs)).
Proof.
  intros Hc Hg Hr Hp Hl.
  assert (Hf : forall L, (0 <= L)%Z ->
            fetch_site_items soup_parse css_select session_get site_configs site_name L
            = ret (take (Z.to_nat L) items)).
  { intros L HL. unfold fetch_site_items, fetch_body, bind.
    rewrite Hc, Hg, Hr, Hp. unfold py_slice_upto.
    rewrite (proj2 (Z.leb_le 0 L) HL). reflexivity. }
  split; [now apply Hf|]. split; [apply length_take|].
  intros now_date now_hour fs date hour Hne. simpl.
  unfold export_site_items. rewrite (Hf 30%Z ltac:(lia)).
  destruct items as [|it rest]; [congruence|]. reflexivity.
Qed.

Lemma fetch_truncates_witness :
  fetch_site_items (parse_to many_doc) tag_select serve_ok rss_registry "rss" 30
    = ret (take 30 items50) /\
  length (take 30 items50) = 30%nat.
Proof.
  destruct (fetch_truncates (parse_to many_doc) tag_select serve_ok rss_registry "rss"
              rss_cfg {| status_code := 200; text := "" |} items50 30
              eq_refl eq_refl eq_refl ltac:(vm_compute; reflexivity) ltac:(lia))
    as (F & L & _).
  split; [exact F|]. vm_compute. reflexivity.
Defined.

(** C7 (error routing): [fetch_site_items] raises a [ValueError] exactly
    when the site is not registered; for a registered site it raises
    nothing, and a failure of the request, of the status check or of the
    parsing yields the empty list. *)
Theorem fetch_error_routing (soup_parse : string -> result Node)
    (css_select : string -> Node -> result (list Node))
    (session_get : string -> result Response)
    (site_configs : gmap string SiteConfig) (site_name : string) (limit : Z) :
  ((exists msg, fetch_site_items soup_parse css_select session_get site_configs site_name limit
                = raise (ValueError msg))
   <-> site_configs !! site_name = None) /\
  (forall e, fetch_site_items soup_parse css_select session_get site_configs site_name limit
             = raise e -> site_configs !! site_name = None) /\
  (forall config e,
     site_configs !! site_name = Some config ->
     fetch_body soup_parse css_select session_get config limit = raise e ->
     fetch_site_items soup_parse css_select session_get site_configs site_name limit = ret []).
Proof.
  unfold fetch_site_items.
  destruct (site_configs !! site_name) as [config|] eqn:E.
  - destruct (fetch_body soup_parse css_select session_get config limit) as [e|items] eqn:B.
    + split; [split; [intros [msg H]; discriminate | discriminate]|].
      split; [intros e' H; discriminate|].
      intros config' e' H _. reflexivity.
    + split; [split; [intros [msg H]; discriminate | discriminate]|].
      split; [intros e' H; discriminate|].
      intros config' e' H HB. inversion H; subst config'. congruence.
  - split; [split; [reflexivity | intros _; eexists; reflexivity]|].
    split; [reflexivity|]. intros config e H. discriminate.
Qed.

Lemma fetch_error_routing_witness :
  (fetch_site_items (parse_to rss_doc) tag_select serve_timeout rss_registry "missing" 30
     = raise (ValueError ("未找到站点配置: " ++ "missing")) /\
   rss_registry !! "missing" = None) /\
  fetch_site_items (parse_to rss_doc) tag_select serve_timeout rss_registry "rss" 30 = ret [].
Proof.
  destruct (fetch_error_routing (parse_to rss_doc) tag_select serve_timeout rss_registry
              "missing" 30) as (E1 & _ & _).
  destruct (fetch_error_routing (parse_to rss_doc) tag_select serve_timeout rss_registry
              "rss" 30) as (_ & _ & E3).
  split.
  - split; [reflexivity|]. apply E1. eexists. reflexivity.
  - apply (E3 rss_cfg (RequestException "timed out")); reflexivity.
Defined.

(** C8 (export fails soft): [export_site_items] returns [None], raises
    nothing and writes no file when the site is unknown, when the fetch
    yields no item, and in particular when no node matches [item_selector]. *)
Theorem export_fail_soft (soup_parse : string -> result Node)
    (css_select : string -> Node -> result (list Node))
    (session_get : string -> result Response)
    (site_configs : gmap string SiteConfig) (now_date now_hour : string)
    (fs : gmap string string) (site_name : string) (date hour : option string) :
  (site_configs !! site_name = None ->
   export_site_items soup_parse css_select session_get site_configs now_date now_hour
     fs site_name date hour = (ret None, fs)) /\
  (fetch_site_items soup_parse css_select session_get site_configs site_name 30 = ret [] ->
   export_site_items soup_parse css_select session_get site_configs now_date now_hour
     fs site_name date hour = (ret None, fs)) /\
  (forall config response soup,
     site_configs !! site_name = Some config ->
     session_get (url config) = ret response ->
     raise_for_status response = ret tt ->
     soup_parse (text response) = ret soup ->
     css_select (item_selector config) soup = ret [] ->
     export_site_items soup_parse css_select session_get site_configs now_date now_hour
       fs site_name date hour = (ret None, fs)).
Proof.
  assert (Empty : fetch_site_items soup_parse css_select session_get site_configs site_name 30
                  = ret [] ->
                  export_site_items soup_parse css_select session_get site_configs now_date
                    now_hour fs site_name date hour = (ret None, fs)).
  { intros H. unfold export_site_items. now rewrite H. }
  split; [|split; [exact Empty|]].
  - intros H. unfold export_site_items, fetch_site_items. now rewrite H.
  - intros config response soup Hc Hg Hr Hs Hn. apply Empty.
    unfold fetch_site_items, fetch_body, parse_items, bind.
    rewrite Hc, Hg, Hr, Hs, Hn. reflexivity.
Qed.

Lemma export_fail_soft_witness :
  (rss_registry !! "missing" = None /\
   export_site_items (parse_to rss_doc) tag_select serve_ok rss_registry "2026-10-19" "09"
     ∅ "missing" None None = (ret None, ∅)) /\
  (fetch_site_items (parse_to rss_doc) tag_select serve_timeout rss_registry "rss" 30 = ret [] /\
   export_site_items (parse_to rss_doc) tag_select serve_timeout rss_registry "2026-10-19" "09"
     ∅ "rss" None None = (ret None, ∅)) /\
  export_site_items (parse_to (Tag "[document]" [] [])) tag_select serve_ok rss_registry
    "2026-10-19" "09" ∅ "rss" None None = (ret None, ∅).
Proof.
  split; [|split].
  - split; [reflexivity|].
    apply (proj1 (export_fail_soft (parse_to rss_doc) tag_select serve_ok rss_registry
                    "2026-10-19" "09" ∅ "missing" None None)).
    reflexivity.
  - split; [reflexivity|].
    apply (proj1 (proj2 (export_fail_soft (parse_to rss_doc) tag_select serve_timeout
                           rss_registry "2026-10-19" "09" ∅ "rss" None None))).
    reflexivity.
  - apply (proj2 (proj2 (export_fail_soft (parse_to (Tag "[document]" [] [])) tag_select
                           serve_ok rss_registry "2026-10-19" "09" ∅ "rss" None None))
             rss_cfg {| status_code := 200; text := "" |} (Tag "[document]" [] []));
      reflexivity.
Defined.

(** C10, counterexample: with a blank name, the registered name comes from
    the whole network location of the URL, port included, not from its
    host alone. *)
Lemma adhoc_site_name_counterexample :
  let result :=
    generate_custom_site_report (parse_to rss_doc) tag_select serve_timeout rss_registry
      "2026-10-19" "09" ∅ None (Some "") (Some "https://example.com:8080/feed")
      (Some "item") (Some "title") None None None in
  fst (snd result) !! "example_com:8080" <> None /\
  fst (snd result) !! "example_com" = None.
Proof. split; [vm_compute; discriminate | vm_compute; reflexivity]. Qed.

(** C10 (amended): on the ad-hoc path the site is registered and exported
    under [_normalize_site_name(name, url)]; that name is the supplied name
    stripped, lower-cased, with spaces replaced by underscores, or, when
    that is empty, the network location of the supplied URL (host with any
    user info and port) with dots and spaces replaced by underscores. It
    differs from a supplied name containing an upper-case letter or a
    space, and from an empty name when the URL's network location is not
    empty. *)
Theorem adhoc_site_name (soup_parse : string -> result Node)
    (css_select : string -> Node -> result (list Node))
    (session_get : string -> result Response)
    (site_configs : gmap string SiteConfig) (now_date now_hour : string)
    (fs : gmap string string) :
  (forall site_name custom_site_name custom_site_url custom_item_selector
          custom_title_selector custom_link_selector custom_summary_selector
          custom_base_url parsed_url chosen_site,
     truthy (or_empty custom_site_url) && truthy (or_empty custom_item_selector)
       && truthy (or_empty custom_title_selector) = true ->
     urlparse (py_strip (or_empty custom_site_url)) "" = ret parsed_url ->
     pr_scheme parsed_url <> "" -> pr_netloc parsed_url <> "" ->
     normalize_site_name custom_site_name (or_empty custom_site_url) = ret chosen_site ->
     exists config,
       name config = chosen_site /\
       generate_custom_site_report soup_parse css_select session_get site_configs
         now_date now_hour fs site_name custom_site_name custom_site_url
         custom_item_selector custom_title_selector custom_link_selector
         custom_summary_selector custom_base_url
       = (fst (export_and_report soup_parse css_select session_get
                 (<[chosen_site := config]> site_configs) now_date now_hour fs chosen_site),
          (<[chosen_site := config]> site_configs,
           snd (export_and_report soup_parse css_select session_get
                  (<[chosen_site := config]> site_configs) now_date now_hour fs chosen_site)))) /\
  (forall raw_name fallback_url,
     normalize_site_name raw_name fallback_url =
       let nm := py_lower (py_strip (or_empty raw_name)) in
       if truthy nm then ret (py_replace " " "_" nm)
       else (let* parsed := urlparse fallback_url "" in
             ret (py_replace " " "_" (py_replace "." "_" (pr_netloc parsed))))) /\
  (forall raw_name fallback_url chosen_site,
     normalize_site_name (Some raw_name) fallback_url = ret chosen_site ->
     str_existsb is_upper raw_name = true \/ str_in " " raw_name = true ->
     chosen_site <> raw_name) /\
  (forall fallback_url parsed chosen_site,
     urlparse fallback_url "" = ret parsed -> pr_netloc parsed <> "" ->
     normalize_site_name (Some "") fallback_url = ret chosen_site ->
     chosen_site <> "").
Proof.
  split; [|split; [exact normalize_site_name_cases|split]].
  - intros site_name cname curl citem ctitle clink csummary cbase parsed chosen
      Hc Hp Hs Hn Hname.
    unfold generate_custom_site_report. rewrite Hc, Hp.
    apply truthy_true in Hs, Hn. rewrite Hs, Hn. simpl. rewrite Hname.
    exists (adhoc_config chosen parsed curl citem ctitle clink csummary cbase).
    split; [reflexivity|].
    destruct (export_and_report _ _ _ _ _ _ _ _); reflexivity.
  - intros raw url0 chosen H Hraw. rewrite normalize_site_name_cases in H. simpl in H.
    destruct (truthy (py_lower (py_strip raw))) eqn:T.
    + inversion H; subst chosen. intros E. destruct Hraw as [Hu|Hsp].
      * pose proof (replace_space_no_upper _ (no_upper_lower (py_strip raw))) as N.
        rewrite E, Hu in N. discriminate.
      * pose proof (replace_space_no_space (py_lower (py_strip raw))) as N.
        rewrite E, Hsp in N. discriminate.
    + apply truthy_false, lower_empty in T.
      destruct (urlparse url0 "") as [e|parsed]; [discriminate|].
      inversion H; subst chosen. intros E. destruct Hraw as [Hu|Hsp].
      * exact (upper_not_blank _ Hu T).
      * pose proof (replace_space_no_space (py_replace "." "_" (pr_netloc parsed))) as N.
        rewrite E, Hsp in N. discriminate.
  - intros url0 parsed chosen Hp Hn H. rewrite normalize_site_name_cases in H.
    simpl in H. unfold bind in H. rewrite Hp in H. inversion H; subst chosen.
    now apply replace_space_nonempty, replace_dot_nonempty.
Qed.

Lemma adhoc_site_name_witness :
  (exists config, name config = "my_blog" /\
     generate_custom_site_report (parse_to rss_doc) tag_select serve_ok ∅
       "2026-10-19" "09" ∅ None (Some " My Blog ") (Some "https://x/feed.xml")
       (Some "item") (Some "title") (Some "link") (Some "description") None
     = (fst (export_and_report (parse_to rss_doc) tag_select serve_ok
               (<["my_blog" := config]> ∅) "2026-10-19" "09" ∅ "my_blog"),
        (<["my_blog" := config]> ∅,
         snd (export_and_report (parse_to rss_doc) tag_select serve_ok
                (<["my_blog" := config]> ∅) "2026-10-19" "09" ∅ "my_blog")))) /\
  normalize_site_name (Some "My Blog") "https://x" <> ret "My Blog" /\
  normalize_site_name (Some "") "https://example.com" <> ret "".
Proof.
  destruct (adhoc_site_name (parse_to rss_doc) tag_select serve_ok ∅ "2026-10-19" "09" ∅)
    as (A & _ & C & D).
  split; [|split].
  - apply (A None (Some " My Blog ") (Some "https://x/feed.xml") (Some "item")
             (Some "title") (Some "link") (Some "description") None
             {| pr_scheme := "https"; pr_netloc := "x"; pr_path := "/feed.xml";
                pr_params := ""; pr_query := ""; pr_fragment := "" |});
      vm_compute; first [reflexivity | discriminate].
  - intros H. exact (C "My Blog" "https://x" "My Blog" H (or_intror eq_refl) eq_refl).
  - intros H. apply (D "https://example.com"
                       {| pr_scheme := "https"; pr_netloc := "example.com"; pr_path := "";
                          pr_params := ""; pr_query := ""; pr_fragment := "" |} "");
      [vm_compute; reflexivity | discriminate | exact H | reflexivity].
Defined.

(** ** Lemmas: the ordered registry, paths *)

Lemma od_to_map_setitem {V} (k : string) (v : V) (d : odict V) :
  od_to_map (od_setitem k v d) = <[k:=v]> (od_to_map d).
Proof.
  unfold od_to_map. induction d as [|[k' v'] d IH]; simpl; [reflexivity|].
  destruct (String.eqb_spec k' k) as [->|Hne]; simpl.
  - by rewrite insert_insert_eq.
  - rewrite IH. by rewrite insert_insert_ne.
Qed.

Lemma od_get_to_map {V} (k : string) (d : odict V) : od_get k d = od_to_map d !! k.
Proof.
  unfold od_to_map. induction d as [|[k' v'] d IH]; simpl; [reflexivity|].
  rewrite lookup_insert. destruct (String.eqb_spec k' k); destruct (decide (k' = k));
    congruence.
Qed.

Lemma has_site_get (d : odict SiteConfig) (n : string) :
  has_site d n = true <-> od_get n d <> None.
Proof.
  unfold has_site, od_keys. induction d as [|[k v] d IH]; simpl.
  - split; [discriminate | congruence].
  - destruct (String.eqb_spec n k) as [E|Hne].
    + subst k. rewrite String.eqb_refl. split; [discriminate | reflexivity].
    + rewrite (proj2 (String.eqb_neq k n) (not_eq_sym Hne)). exact IH.
Qed.

Lemma od_keys_setitem {V} (k : string) (v : V) (d : odict V) :
  od_keys (od_setitem k v d)
  = if existsb (String.eqb k) (od_keys d) then od_keys d else app (od_keys d) [k].
Proof.
  unfold od_keys. induction d as [|[k' v'] d IH]; simpl; [reflexivity|].
  destruct (String.eqb_spec k' k) as [->|Hne]; simpl.
  - by rewrite String.eqb_refl.
  - rewrite IH. destruct (String.eqb_spec k k'); [congruence|].
    simpl. destruct (existsb _ _); reflexivity.
Qed.

Lemma str_app_assoc (a b c : string) : a ++ b ++ c = (a ++ b) ++ c.
Proof.
  induction a as [|x a IH]; [reflexivity|].
  rewrite !append_cons. exact (f_equal (String x) IH).
Qed.

Lemma slash_app (s : string) : "/" ++ s = String "/" s.
Proof. reflexivity. Qed.

Lemma ends_slash_cons c t : t <> "" -> ends_slash (String c t) = ends_slash t.
Proof.
  intros Ht. unfold ends_slash, py_drop.
  change (String.length (String c t)) with (S (String.length t)).
  destruct (String.length t) as [|m] eqn:L.
  - destruct t; [congruence | discriminate].
  - replace (S (S m) - 1) with (S m) by lia.
    replace (S m - 1) with m by lia.
    reflexivity.
Qed.

Lemma ends_slash_app a b : b <> "" -> ends_slash (a ++ b) = ends_slash b.
Proof.
  intros Hb. induction a as [|c a IH]; [reflexivity|].
  rewrite append_cons, ends_slash_cons; [exact IH|].
  destruct a; [exact Hb | discriminate].
Qed.

Lemma substring_0_0 s : substring 0 0 s = "".
Proof. destruct s; reflexivity. Qed.

Lemma starts_slash_app a b : a <> "" -> starts_slash (a ++ b) = starts_slash a.
Proof. destruct a as [|c a]; [congruence|]. intros _. rewrite append_cons. unfold starts_slash, py_take. simpl.
  now rewrite !substring_0_0. Qed.

(** One step of [posixpath.join] onto a non-empty path that does not end in
    a slash. *)
Lemma os_path_join_step a b :
  a <> "" -> ends_slash a = false -> starts_slash b = false ->
  os_path_join a [b] = a ++ "/" ++ b.
Proof.
  intros Ha He Hs. unfold os_path_join. simpl.
  unfold starts_slash, ends_slash in *. rewrite Hs, He.
  apply truthy_true in Ha. rewrite Ha. reflexivity.
Qed.

Lemma app_nonempty_r (a b : string) : b <> "" -> a ++ b <> "".
Proof. destruct a as [|c a]; [tauto|]. intros _. rewrite append_cons. discriminate. Qed.

Lemma os_path_join_abs a b : starts_slash b = true -> os_path_join a [b] = b.
Proof. intros H. unfold os_path_join. simpl. unfold starts_slash in H. now rewrite H. Qed.

(** [posixpath.join("custom_sites", site_name, date, hour + ".md")] as it is
    computed by [export_site_items], for segments without stray slashes. *)
Lemma export_path_layout site_name date hour :
  site_name <> "" -> ends_slash site_name = false ->
  date <> "" -> starts_slash date = false -> ends_slash date = false ->
  starts_slash hour = false ->
  os_path_join (os_path_join "custom_sites" [site_name; date]) [hour ++ ".md"]
  = (if starts_slash site_name then "" else "custom_sites/")
    ++ site_name ++ "/" ++ date ++ "/" ++ hour ++ ".md".
Proof.
  intros Hs He Hd Hds Hde Hh.
  change (os_path_join "custom_sites" [site_name; date])
    with (os_path_join (os_path_join "custom_sites" [site_name]) [date]).
  assert (E1 : os_path_join "custom_sites" [site_name]
               = (if starts_slash site_name then "" else "custom_sites/") ++ site_name).
  { destruct (starts_slash site_name) eqn:S.
    - now apply os_path_join_abs.
    - rewrite os_path_join_step; [| discriminate | reflexivity | exact S].
      now rewrite str_app_assoc. }
  rewrite E1.
  set (pre := if starts_slash site_name then "" else "custom_sites/").
  rewrite (os_path_join_step (pre ++ site_name) date);
    [| now apply app_nonempty_r | now rewrite ends_slash_app | exact Hds].
  rewrite os_path_join_step.
  - now rewrite <- !str_app_assoc.
  - apply app_nonempty_r. now rewrite slash_app.
  - rewrite ends_slash_app, slash_app, ends_slash_cons; [exact Hde | exact Hd |].
    now rewrite slash_app.
  - destruct hour as [|c h]; [reflexivity|]. now rewrite starts_slash_app.
Qed.

Lemma parse_nodes_error config nodes node e css_select :
  In node nodes -> parse_node css_select config node = raise e ->
  exists e', parse_nodes css_select config nodes = raise e'.
Proof.
  induction nodes as [|n ns IH]; [contradiction|].
  intros [->|Hin] He; simpl; unfold bind.
  - rewrite He. eauto.
  - destruct (parse_node css_select config n) as [e0|o]; [eauto|].
    destruct (IH Hin He) as [e' ->]. eauto.
Qed.

(** ** Further properties of the client and of the server *)

(** Extra (register_site): after [register_site(config)] the dict maps the
    name of [config] to [config] and every other name to what it mapped
    before; the map [fetch_site_items] reads is the former one with
    [config] inserted. *)
Theorem register_site_get (site_configs : odict SiteConfig) (config : SiteConfig)
    (k : string) :
  od_get k (register_site site_configs config)
    = (if String.eqb (name config) k then Some config else od_get k site_configs) /\
  od_to_map (register_site site_configs config)
    = <[name config := config]> (od_to_map site_configs).
Proof.
  split; [|apply od_to_map_setitem].
  rewrite !od_get_to_map. unfold register_site. rewrite od_to_map_setitem, lookup_insert.
  destruct (String.eqb_spec (name config) k); destruct (decide (name config = k));
    congruence.
Qed.

(** Extra (register_site, list_sites): registering a name already present
    keeps [list_sites()] as it is (the entry is replaced in place);
    registering a new name appends it at the end; the listed names stay
    pairwise distinct. *)
Theorem register_site_list_sites (site_configs : odict SiteConfig) (config : SiteConfig) :
  list_sites (register_site site_configs config)
    = (if has_site site_configs (name config) then list_sites site_configs
       else app (list_sites site_configs) [name config]) /\
  (NoDup (list_sites site_configs) ->
   NoDup (list_sites (register_site site_configs config))).
Proof.
  assert (E : list_sites (register_site site_configs config)
              = (if has_site site_configs (name config) then list_sites site_configs
                 else app (list_sites site_configs) [name config]))
    by apply od_keys_setitem.
  split; [exact E|]. intros Hn. rewrite E.
  destruct (has_site site_configs (name config)) eqn:H; [exact Hn|].
  apply NoDup_app. split; [exact Hn|]. split; [|apply NoDup_singleton].
  intros x Hx Hx'. apply list_elem_of_singleton in Hx'. subst x.
  apply list_elem_of_In in Hx.
  unfold has_site in H. rewrite (proj2 (existsb_exists _ _)) in H; [discriminate|].
  exists (name config). split; [exact Hx | apply String.eqb_refl].
Qed.

Lemma register_site_list_sites_witness :
  list_sites (register_site builtin_site_configs rss_cfg)
    = ["openai_blog"; "openai_research"; "rss"] /\
  NoDup (list_sites (register_site builtin_site_configs rss_cfg)).
Proof.
  destruct (register_site_list_sites builtin_site_configs rss_cfg) as [E N].
  split; [rewrite E; reflexivity|].
  apply N. apply (@bool_decide_unpack _ (NoDup_dec _)). vm_compute. exact I.
Defined.

(** Extra (has_site, fetch_site_items): [has_site(name)] is false exactly
    when [fetch_site_items(name, limit)] raises its [ValueError]. *)
Theorem has_site_fetch (soup_parse : string -> result Node)
    (css_select : string -> Node -> result (list Node))
    (session_get : string -> result Response)
    (site_configs : odict SiteConfig) (site_name : string) (limit : Z) :
  has_site site_configs site_name = false <->
  exists msg, fetch_site_items soup_parse css_select session_get (od_to_map site_configs)
                site_name limit = raise (ValueError msg).
Proof.
  pose proof (has_site_get site_configs site_name) as H.
  rewrite od_get_to_map in H. unfold fetch_site_items.
  destruct (od_to_map site_configs !! site_name) as [config|] eqn:E.
  - assert (T : has_site site_configs site_name = true) by (apply H; discriminate).
    rewrite T. split; [discriminate|].
    intros [msg M]. destruct (fetch_body _ _ _ _ _); discriminate.
  - destruct (has_site site_configs site_name) eqn:T.
    + exfalso. exact (proj1 H eq_refl eq_refl).
    + split; [intros _; eexists; reflexivity | reflexivity].
Qed.

(** Extra (export_site_items): the file is written at
    [custom_sites/<site_name>/<date>/<hour>.md] when the segments carry no
    stray slash; a site name beginning with a slash is an absolute path and
    the file lands outside [custom_sites]. *)
Theorem export_site_items_path (soup_parse : string -> result Node)
    (css_select : string -> Node -> result (list Node))
    (session_get : string -> result Response)
    (site_configs : gmap string SiteConfig) (now_date now_hour : string)
    (fs : gmap string string) (site_name date hour : string) (items : list Item) :
  fetch_site_items soup_parse css_select session_get site_configs site_name 30 = ret items ->
  items <> [] ->
  site_name <> "" -> ends_slash site_name = false ->
  date <> "" -> starts_slash date = false -> ends_slash date = false ->
  starts_slash hour = false ->
  let path := (if starts_slash site_name then "" else "custom_sites/")
              ++ site_name ++ "/" ++ date ++ "/" ++ hour ++ ".md" in
  export_site_items soup_parse css_select session_get site_configs now_date now_hour fs
    site_name (Some date) (Some hour)
  = (ret (Some path), <[path := render_file site_name date hour items]> fs).
Proof.
  intros Hf Hi Hs He Hd Hds Hde Hh path.
  unfold export_site_items. rewrite Hf.
  destruct items as [|it rest]; [congruence|].
  cbv beta iota zeta. rewrite export_path_layout; auto.
Qed.

Lemma export_site_items_path_witness :
  (exists fs', export_site_items (parse_to rss_doc) tag_select serve_ok rss_registry "d" "h"
                 ∅ "rss" (Some "2026-10-19") (Some "09")
               = (ret (Some "custom_sites/rss/2026-10-19/09.md"), fs')) /\
  (exists fs', export_site_items (parse_to rss_doc) tag_select serve_ok
                 (<["/tmp/rss" := rss_cfg]> ∅) "d" "h" ∅ "/tmp/rss"
                 (Some "2026-10-19") (Some "09")
               = (ret (Some "/tmp/rss/2026-10-19/09.md"), fs')).
Proof.
  split; eexists.
  - rewrite (export_site_items_path (parse_to rss_doc) tag_select serve_ok rss_registry
               "d" "h" ∅ "rss" "2026-10-19" "09" rss_items);
      first [reflexivity | discriminate | vm_compute; reflexivity].
  - rewrite (export_site_items_path (parse_to rss_doc) tag_select serve_ok
               (<["/tmp/rss" := rss_cfg]> ∅) "d" "h" ∅ "/tmp/rss" "2026-10-19" "09"
               rss_items);
      first [reflexivity | discriminate | vm_compute; reflexivity].
Defined.

(** Extra (export_site_items): two exports of the same site into the same
    date and hour bucket write the same file; the second one replaces the
    content of the first, and no other file is touched. *)
Theorem export_site_items_overwrite (soup_parse : string -> result Node)
    (css_select : string -> Node -> result (list Node))
    (session_get1 session_get2 : string -> result Response)
    (site_configs : gmap string SiteConfig) (now_date now_hour : string)
    (fs : gmap string string) (site_name : string) (date hour : option string)
    (items1 items2 : list Item) :
  fetch_site_items soup_parse css_select session_get1 site_configs site_name 30 = ret items1 ->
  items1 <> [] ->
  fetch_site_items soup_parse css_select session_get2 site_configs site_name 30 = ret items2 ->
  items2 <> [] ->
  let d := match date with Some d => d | None => now_date end in
  let h := match hour with Some h => h | None => now_hour end in
  let '(r1, fs1) := export_site_items soup_parse css_select session_get1 site_configs
                      now_date now_hour fs site_name date hour in
  let '(r2, fs2) := export_site_items soup_parse css_select session_get2 site_configs
                      now_date now_hour fs1 site_name date hour in
  r2 = r1 /\
  exists path, r1 = ret (Some path) /\
               fs2 = <[path := render_file site_name d h items2]> fs.
Proof.
  intros H1 N1 H2 N2 d h. unfold export_site_items. rewrite H1, H2.
  destruct items1 as [|i1 r1]; [congruence|].
  destruct items2 as [|i2 r2]; [congruence|].
  cbv beta iota zeta. split; [reflexivity|].
  eexists. split; [reflexivity|]. apply insert_insert_eq.
Qed.

Lemma export_site_items_overwrite_witness :
  let parse := fun html => if String.eqb html "new" then ret (Tag "[document]" [] [rss_item "9"])
                           else ret rss_doc in
  let serve_new : string -> result Response :=
    fun _ => ret {| status_code := 200; text := "new" |} in
  let '(r1, fs1) := export_site_items parse tag_select serve_ok rss_registry
                      "2026-10-19" "09" ∅ "rss" None None in
  let '(r2, fs2) := export_site_items parse tag_select serve_new rss_registry
                      "2026-10-19" "09" fs1 "rss" None None in
  r2 = r1 /\
  exists path, r1 = ret (Some path) /\
    fs2 = <[path := render_file "rss" "2026-10-19" "09"
                      [{| title := "T"; link := "https://x/9"; summary := "D" |}]]> ∅.
Proof.
  intros parse serve_new.
  exact (export_site_items_overwrite parse tag_select serve_ok serve_new
           rss_registry "2026-10-19" "09" ∅ "rss" None None rss_items
           [{| title := "T"; link := "https://x/9"; summary := "D" |}]
           ltac:(vm_compute; reflexivity) ltac:(discriminate)
           ltac:(vm_compute; reflexivity) ltac:(discriminate)).
Defined.

(** Extra (fetch_site_items): a negative [limit] does not mean "no limit"
    nor "nothing": [items[:limit]] drops the last [-limit] items, and all
    of them once [-limit] reaches their number. *)
Theorem fetch_negative_limit (soup_parse : string -> result Node)
    (css_select : string -> Node -> result (list Node))
    (session_get : string -> result Response)
    (site_configs : gmap string SiteConfig) (site_name : string)
    (config : SiteConfig) (response : Response) (items : list Item) (limit : Z) :
  site_configs !! site_name = Some config ->
  session_get (url config) = ret response ->
  raise_for_status response = ret tt ->
  parse_items soup_parse css_select (text response) config = ret items ->
  (limit < 0)%Z ->
  fetch_site_items soup_parse css_select session_get site_configs site_name limit
    = ret (take (length items - Z.to_nat (- limit)) items) /\
  app (take (length items - Z.to_nat (- limit)) items)
      (drop (length items - Z.to_nat (- limit)) items) = items /\
  length (drop (length items - Z.to_nat (- limit)) items)
    = Nat.min (Z.to_nat (- limit)) (length items) /\
  ((Z.of_nat (length items) <= - limit)%Z ->
   fetch_site_items soup_parse css_select session_get site_configs site_name limit = ret []).
Proof.
  intros Hc Hg Hr Hp Hl.
  assert (F : fetch_site_items soup_parse css_select session_get site_configs site_name limit
              = ret (take (length items - Z.to_nat (- limit)) items)).
  { unfold fetch_site_items, fetch_body, bind. rewrite Hc, Hg, Hr, Hp.
    unfold py_slice_upto. destruct (Z.leb_spec 0 limit); [lia | reflexivity]. }
  split; [exact F|]. split; [apply take_drop|]. split; [rewrite length_drop; lia|].
  intros Hle. rewrite F. replace (length items - Z.to_nat (- limit)) with 0 by lia.
  reflexivity.
Qed.

Lemma fetch_negative_limit_witness :
  fetch_site_items (parse_to rss_doc) tag_select serve_ok rss_registry "rss" (-1)
    = ret (take 2 rss_items) /\
  fetch_site_items (parse_to rss_doc) tag_select serve_ok rss_registry "rss" (-5) = ret [].
Proof.
  destruct (fetch_negative_limit (parse_to rss_doc) tag_select serve_ok rss_registry "rss"
              rss_cfg {| status_code := 200; text := "" |} rss_items (-1)
              eq_refl eq_refl eq_refl ltac:(vm_compute; reflexivity) ltac:(lia))
    as (F & _ & _ & _).
  destruct (fetch_negative_limit (parse_to rss_doc) tag_select serve_ok rss_registry "rss"
              rss_cfg {| status_code := 200; text := "" |} rss_items (-5)
              eq_refl eq_refl eq_refl ltac:(vm_compute; reflexivity) ltac:(lia))
    as (_ & _ & _ & G).
  split; [exact F | apply G; vm_compute; discriminate].
Defined.

(** Extra (fetch_site_items): whatever the server, the parser or the
    registry do, a non-negative [limit] bounds the number of items
    returned. *)
Theorem fetch_site_items_bound (soup_parse : string -> result Node)
    (css_select : string -> Node -> result (list Node))
    (session_get : string -> result Response)
    (site_configs : gmap string SiteConfig) (site_name : string) (limit : Z)
    (items : list Item) :
  (0 <= limit)%Z ->
  fetch_site_items soup_parse css_select session_get site_configs site_name limit = ret items ->
  (length items <= Z.to_nat limit)%nat.
Proof.
  intros Hl. unfold fetch_site_items.
  destruct (site_configs !! site_name) as [config|]; [|discriminate].
  destruct (fetch_body soup_parse css_select session_get config limit) as [e|l] eqn:B.
  - intros H. inversion H. simpl. lia.
  - intros H. inversion H; subst l. unfold fetch_body, bind in B.
    destruct (session_get (url config)); [discriminate|].
    destruct (raise_for_status _); [discriminate|].
    destruct (parse_items _ _ _ _) as [|its]; [discriminate|].
    inversion B. unfold py_slice_upto.
    destruct (Z.leb_spec 0 limit); [|lia]. rewrite length_take. lia.
Qed.

Lemma fetch_site_items_bound_witness :
  fetch_site_items (parse_to many_doc) tag_select serve_ok rss_registry "rss" 30
    = ret (take 30 items50) /\
  (length (take 30 items50) <= 30)%nat.
Proof.
  assert (F : fetch_site_items (parse_to many_doc) tag_select serve_ok rss_registry "rss" 30
              = ret (take 30 items50)) by (vm_compute; reflexivity).
  split; [exact F|].
  exact (fetch_site_items_bound (parse_to many_doc) tag_select serve_ok rss_registry "rss" 30
           (take 30 items50) ltac:(lia) F).
Defined.

(** Extra (_parse_items): each node matched by [item_selector] yields at
    most one item. *)
Theorem parse_items_at_most_one_per_node (soup_parse : string -> result Node)
    (css_select : string -> Node -> result (list Node))
    (html : string) (config : SiteConfig) (soup : Node) (nodes : list Node)
    (items : list Item) :
  soup_parse html = ret soup ->
  css_select (item_selector config) soup = ret nodes ->
  parse_items soup_parse css_select html config = ret items ->
  (length items <= length nodes)%nat.
Proof.
  intros Hs Hn. unfold parse_items, bind. rewrite Hs, Hn.
  intros H. apply parse_nodes_spec in H as [os [HF ->]]. clear Hs Hn.
  induction HF as [|n o ns os _ _ IH]; simpl; [lia|].
  rewrite length_app. destruct o; simpl; lia.
Qed.

Lemma parse_items_at_most_one_per_node_witness :
  parse_items (parse_to rss_doc) tag_select "" rss_cfg = ret rss_items /\
  (length rss_items <= 3)%nat.
Proof.
  assert (P : parse_items (parse_to rss_doc) tag_select "" rss_cfg = ret rss_items)
    by (vm_compute; reflexivity).
  split; [exact P|].
  exact (parse_items_at_most_one_per_node (parse_to rss_doc) tag_select "" rss_cfg rss_doc
           [rss_item "1"; rss_item "2"; rss_item "3"] rss_items eq_refl
           ltac:(vm_compute; reflexivity) P).
Defined.

(** Extra (_parse_items, fetch_site_items): extraction is all or nothing:
    if one matched node raises (a rejected selector, a malformed link that
    [urljoin] refuses), no item of the page is kept and
    [fetch_site_items] returns the empty list. *)
Theorem fetch_one_bad_node (soup_parse : string -> result Node)
    (css_select : string -> Node -> result (list Node))
    (session_get : string -> result Response)
    (site_configs : gmap string SiteConfig) (site_name : string) (limit : Z)
    (config : SiteConfig) (response : Response) (soup : Node) (nodes : list Node)
    (node : Node) (e : exn) :
  site_configs !! site_name = Some config ->
  session_get (url config) = ret response ->
  raise_for_status response = ret tt ->
  soup_parse (text response) = ret soup ->
  css_select (item_selector config) soup = ret nodes ->
  In node nodes ->
  parse_node css_select config node = raise e ->
  (exists e', parse_items soup_parse css_select (text response) config = raise e') /\
  fetch_site_items soup_parse css_select session_get site_configs site_name limit = ret [].
Proof.
  intros Hc Hg Hr Hs Hn Hin He.
  destruct (parse_nodes_error config nodes node e css_select Hin He) as [e' E].
  assert (P : parse_items soup_parse css_select (text response) config = raise e').
  { unfold parse_items, bind. now rewrite Hs, Hn, E. }
  split; [eauto|].
  unfold fetch_site_items, fetch_body, bind. now rewrite Hc, Hg, Hr, P.
Qed.

Lemma fetch_one_bad_node_witness :
  parse_node tag_select rss_cfg (rss_item "1")
    = ret (Some {| title := "T"; link := "https://x/1"; summary := "D" |}) /\
  (exists e', parse_items (parse_to bad_link_doc) tag_select "" rss_cfg = raise e') /\
  fetch_site_items (parse_to bad_link_doc) tag_select serve_ok rss_registry "rss" 30 = ret [].
Proof.
  split; [vm_compute; reflexivity|].
  exact (fetch_one_bad_node (parse_to bad_link_doc) tag_select serve_ok rss_registry "rss" 30
           rss_cfg {| status_code := 200; text := "" |} bad_link_doc
           [rss_item "1"; bad_link_item] bad_link_item (ValueError "Invalid IPv6 URL")
           eq_refl eq_refl eq_refl eq_refl ltac:(vm_compute; reflexivity)
           ltac:(right; left; reflexivity) ltac:(vm_compute; reflexivity)).
Defined.

(** Extra (_parse_items): a source without [summary_selector] (or with an
    empty one) yields items whose summary is the empty string. *)
Theorem parse_items_no_summary (soup_parse : string -> result Node)
    (css_select : string -> Node -> result (list Node))
    (html : string) (config : SiteConfig) (items : list Item) :
  (summary_selector config = None \/ summary_selector config = Some "") ->
  parse_items soup_parse css_select html config = ret items ->
  Forall (fun item => summary item = "") items.
Proof.
  intros Hsel. unfold parse_items, bind.
  destruct (soup_parse html) as [|soup]; [discriminate|].
  destruct (css_select (item_selector config) soup) as [|nodes]; [discriminate|].
  intros H. apply parse_nodes_spec in H as [os [HF ->]].
  assert (S : summary_of css_select config = fun _ => ret "").
  { unfold summary_of. destruct Hsel as [-> | ->]; reflexivity. }
  induction HF as [|n o ns os Ho _ IH]; simpl; [constructor|].
  destruct o as [item|]; simpl; [|exact IH].
  constructor; [|exact IH].
  destruct (parse_node_some css_select config n item Ho)
    as (tn & ln & raw & _ & _ & _ & _ & Hs & _).
  rewrite S in Hs. inversion Hs. reflexivity.
Qed.

Lemma parse_items_no_summary_witness :
  parse_items (parse_to html_doc) tag_select "" html_cfg
    = ret [{| title := "Hello"; link := "https://site.com/p1"; summary := "" |}] /\
  Forall (fun item => summary item = "")
    [{| title := "Hello"; link := "https://site.com/p1"; summary := "" |}].
Proof.
  assert (P : parse_items (parse_to html_doc) tag_select "" html_cfg
              = ret [{| title := "Hello"; link := "https://site.com/p1"; summary := "" |}])
    by (vm_compute; reflexivity).
  split; [exact P|].
  exact (parse_items_no_summary (parse_to html_doc) tag_select "" html_cfg _
           (or_introl eq_refl) P).
Defined.

(** Extra (generate_custom_site_report): when the three ad-hoc fields are
    filled but the URL has no scheme or no network location, the user gets
    the invalid-URL message, even if a built-in site is selected; nothing
    is registered and no file is written. *)
Theorem generate_invalid_adhoc_url (soup_parse : string -> result Node)
    (css_select : string -> Node -> result (list Node))
    (session_get : string -> result Response)
    (site_configs : gmap string SiteConfig) (now_date now_hour : string)
    (fs : gmap string string)
    (site_name custom_site_name custom_site_url custom_item_selector
     custom_title_selector custom_link_selector custom_summary_selector
     custom_base_url : option string) (parsed_url : ParseResult) :
  truthy (or_empty custom_site_url) && truthy (or_empty custom_item_selector)
    && truthy (or_empty custom_title_selector) = true ->
  urlparse (py_strip (or_empty custom_site_url)) "" = ret parsed_url ->
  pr_scheme parsed_url = "" \/ pr_netloc parsed_url = "" ->
  generate_custom_site_report soup_parse css_select session_get site_configs now_date now_hour
    fs site_name custom_site_name custom_site_url custom_item_selector custom_title_selector
    custom_link_selector custom_summary_selector custom_base_url
  = (ret (Message "临时站点 URL 无效，请输入完整地址（如 https://example.com）。"),
     (site_configs, fs)).
Proof.
  intros Hc Hp Hbad. unfold generate_custom_site_report. rewrite Hc, Hp.
  destruct Hbad as [-> | ->]; [reflexivity|].
  now rewrite orb_true_r.
Qed.

Lemma generate_invalid_adhoc_url_witness :
  urlparse "example.com/feed" ""
    = ret {| pr_scheme := ""; pr_netloc := ""; pr_path := "example.com/feed";
             pr_params := ""; pr_query := ""; pr_fragment := "" |} /\
  generate_custom_site_report (parse_to rss_doc) tag_select serve_ok rss_registry
    "2026-10-19" "09" ∅ (Some "rss") None (Some " example.com/feed ") (Some "item")
    (Some "title") None None None
  = (ret (Message "临时站点 URL 无效，请输入完整地址（如 https://example.com）。"),
     (rss_registry, ∅)).
Proof.
  split; [vm_compute; reflexivity|].
  apply (generate_invalid_adhoc_url (parse_to rss_doc) tag_select serve_ok rss_registry
           "2026-10-19" "09" ∅ (Some "rss") None (Some " example.com/feed ") (Some "item")
           (Some "title") None None None
           {| pr_scheme := ""; pr_netloc := ""; pr_path := "example.com/feed";
              pr_params := ""; pr_query := ""; pr_fragment := "" |});
    [reflexivity | vm_compute; reflexivity | left; reflexivity].
Defined.

(** Extra (generate_custom_site_report): unless the ad-hoc URL, item
    selector and title selector are all filled, every ad-hoc field is
    ignored: the call behaves as with the ad-hoc fields empty, the
    registry is left as it is, and with no built-in site selected the user
    gets the message asking for a site, with no file written. *)
Theorem generate_partial_adhoc_ignored (soup_parse : string -> result Node)
    (css_select : string -> Node -> result (list Node))
    (session_get : string -> result Response)
    (site_configs : gmap string SiteConfig) (now_date now_hour : string)
    (fs : gmap string string)
    (site_name custom_site_name custom_site_url custom_item_selector
     custom_title_selector custom_link_selector custom_summary_selector
     custom_base_url : option string) :
  truthy (or_empty custom_site_url) && truthy (or_empty custom_item_selector)
    && truthy (or_empty custom_title_selector) = false ->
  let gen := generate_custom_site_report soup_parse css_select session_get site_configs
               now_date now_hour fs site_name in
  gen custom_site_name custom_site_url custom_item_selector custom_title_selector
      custom_link_selector custom_summary_selector custom_base_url
  = gen None None None None None None None /\
  fst (snd (gen custom_site_name custom_site_url custom_item_selector custom_title_selector
              custom_link_selector custom_summary_selector custom_base_url)) = site_configs /\
  (or_empty site_name = "" ->
   gen custom_site_name custom_site_url custom_item_selector custom_title_selector
       custom_link_selector custom_summary_selector custom_base_url
   = (ret (Message "请选择内置站点，或填写临时站点 URL 与选择器。"), (site_configs, fs))).
Proof.
  intros Hc gen. unfold gen, generate_custom_site_report. rewrite Hc. simpl.
  split; [reflexivity|]. split.
  - destruct (negb (truthy (or_empty site_name))); [reflexivity|].
    destruct (export_and_report _ _ _ _ _ _ _ _); reflexivity.
  - intros ->. reflexivity.
Qed.

Lemma generate_partial_adhoc_ignored_witness :
  generate_custom_site_report (parse_to rss_doc) tag_select serve_ok rss_registry
    "2026-10-19" "09" ∅ None (Some "Mine") (Some "https://m.example/feed") None
    (Some "title") (Some "a") None None
  = (ret (Message "请选择内置站点，或填写临时站点 URL 与选择器。"), (rss_registry, ∅)).
Proof.
  exact (proj2 (proj2 (generate_partial_adhoc_ignored (parse_to rss_doc) tag_select serve_ok
                         rss_registry "2026-10-19" "09" ∅ None (Some "Mine")
                         (Some "https://m.example/feed") None (Some "title") (Some "a") None
                         None eq_refl)) eq_refl).
Defined.

(** Extra (generate_custom_site_report): the source registered for an
    ad-hoc URL always has a base URL, so its relative links resolve
    against the given base URL or, when that is blank, against
    [scheme://netloc] of the URL, never against the feed URL itself; a
    blank link selector becomes ["a"], a whitespace-only one becomes empty
    (the title element then supplies the link), and a blank summary
    selector means no summary. *)
Theorem generate_adhoc_config (soup_parse : string -> result Node)
    (css_select : string -> Node -> result (list Node))
    (session_get : string -> result Response)
    (site_configs : gmap string SiteConfig) (now_date now_hour : string)
    (fs : gmap string string)
    (site_name custom_site_name custom_site_url custom_item_selector
     custom_title_selector custom_link_selector custom_summary_selector
     custom_base_url : option string) (parsed_url : ParseResult) (chosen_site : string) :
  truthy (or_empty custom_site_url) && truthy (or_empty custom_item_selector)
    && truthy (or_empty custom_title_selector) = true ->
  urlparse (py_strip (or_empty custom_site_url)) "" = ret parsed_url ->
  pr_scheme parsed_url <> "" -> pr_netloc parsed_url <> "" ->
  normalize_site_name custom_site_name (or_empty custom_site_url) = ret chosen_site ->
  exists config,
    fst (snd (generate_custom_site_report soup_parse css_select session_get site_configs
                now_date now_hour fs site_name custom_site_name custom_site_url
                custom_item_selector custom_title_selector custom_link_selector
                custom_summary_selector custom_base_url)) !! chosen_site = Some config /\
    base_or_url config
      = (let b := py_strip (or_empty custom_base_url) in
         if truthy b then b else pr_scheme parsed_url ++ "://" ++ pr_netloc parsed_url) /\
    (or_empty custom_link_selector = "" -> link_selector config = "a") /\
    (or_empty custom_link_selector <> "" -> py_strip (or_empty custom_link_selector) = "" ->
     forall node title_node,
       link_node_of css_select config node title_node = ret (Some title_node)) /\
    (py_strip (or_empty custom_summary_selector) = "" ->
     forall node, summary_of css_select config node = ret "").
Proof.
  intros Hc Hp Hs Hn Hname.
  unfold generate_custom_site_report. rewrite Hc, Hp.
  apply truthy_true in Hs, Hn. rewrite Hs, Hn. simpl. rewrite Hname.
  set (config := adhoc_config chosen_site parsed_url custom_site_url custom_item_selector
                   custom_title_selector custom_link_selector custom_summary_selector
                   custom_base_url).
  exists config.
  assert (Hfs : forall p : result ReportOutcome * gmap string string,
             fst (snd (let '(r, fs') := p in
                       (r, (<[name config := config]> site_configs, fs'))))
             = <[name config := config]> site_configs) by (intros []; reflexivity).
  rewrite Hfs. split; [apply lookup_insert_eq|].
  split; [|split; [|split]].
  - unfold base_or_url, config, adhoc_config. simpl.
    destruct (truthy (py_strip (or_empty custom_base_url))) eqn:B; [now rewrite B|].
    assert (T : truthy (pr_scheme parsed_url ++ "://" ++ pr_netloc parsed_url) = true).
    { apply truthy_true, app_nonempty_r. discriminate. }
    now rewrite T.
  - intros Hl. unfold config, adhoc_config. simpl. rewrite Hl. reflexivity.
  - intros Hl Hw node tn. unfold link_node_of, config, adhoc_config. simpl.
    apply truthy_true in Hl. rewrite Hl, Hw. reflexivity.
  - intros Hsum node. unfold summary_of, config, adhoc_config. simpl.
    rewrite Hsum. reflexivity.
Qed.

Lemma generate_adhoc_config_witness :
  exists config,
    fst (snd (generate_custom_site_report (parse_to rss_doc) tag_select serve_ok ∅
                "2026-10-19" "09" ∅ None (Some "x") (Some "https://x/feed.xml")
                (Some "item") (Some "title") (Some " ") None None)) !! "x" = Some config /\
    base_or_url config = "https://x" /\
    (or_empty (Some " ") = "" -> link_selector config = "a") /\
    (or_empty (Some " ") <> "" -> py_strip (or_empty (Some " ")) = "" ->
     forall node title_node,
       link_node_of tag_select config node title_node = ret (Some title_node)) /\
    (py_strip (or_empty None) = "" ->
     forall node, summary_of tag_select config node = ret "").
Proof.
  exact (generate_adhoc_config (parse_to rss_doc) tag_select serve_ok ∅ "2026-10-19" "09" ∅
           None (Some "x") (Some "https://x/feed.xml") (Some "item") (Some "title")
           (Some " ") None None
           {| pr_scheme := "https"; pr_netloc := "x"; pr_path := "/feed.xml";
              pr_params := ""; pr_query := ""; pr_fragment := "" |} "x"
           eq_refl ltac:(vm_compute; reflexivity) ltac:(discriminate) ltac:(discriminate)
           ltac:(vm_compute; reflexivity)).
Defined.

(** ** Lemmas: strings that [strip()] leaves alone *)

Lemma lower_char_isspace c : py_isspace (lower_char c) = py_isspace c.
Proof. destruct c as [[] [] [] [] [] [] [] []]; reflexivity. Qed.

Lemma py_lower_id s : str_existsb is_upper s = false -> py_lower s = s.
Proof.
  induction s as [|c s IH]; [reflexivity|].
  intros H. change (is_upper c || str_existsb is_upper s = false) in H.
  apply orb_false_iff in H as [Hc Hs]. simpl. rewrite (IH Hs).
  unfold lower_char. now rewrite Hc.
Qed.

Lemma py_replace_id s : str_in " " s = false -> py_replace " " "_" s = s.
Proof.
  induction s as [|c s IH]; [reflexivity|].
  intros H. change (Ascii.eqb " " c || str_in " " s = false) in H.
  apply orb_false_iff in H as [Hc Hs]. rewrite py_replace_cons, Hc, (IH Hs). reflexivity.
Qed.

Lemma py_replace_space_cons c s :
  py_replace " " "_" (String c s) = String (space_to_underscore c) (py_replace " " "_" s).
Proof.
  rewrite py_replace_cons. unfold space_to_underscore. destruct (Ascii.eqb " " c); reflexivity.
Qed.

Lemma lstrip_by_length p s : (String.length (lstrip_by p s) <= String.length s)%nat.
Proof. induction s as [|c s IH]; simpl; [lia|]. destruct (p c); simpl; lia. Qed.

Lemma lstrip_by_fixed p s :
  lstrip_by p s = s <-> match s with "" => True | String c _ => p c = false end.
Proof.
  destruct s as [|c s]; simpl; [tauto|]. destruct (p c) eqn:P.
  - split; [|discriminate]. intros H. pose proof (lstrip_by_length p s) as L.
    rewrite H in L. simpl in L. lia.
  - tauto.
Qed.

Lemma lstrip_by_idem p s : lstrip_by p (lstrip_by p s) = lstrip_by p s.
Proof.
  induction s as [|c s IH]; [reflexivity|]. simpl. destruct (p c) eqn:P; [exact IH|].
  simpl. now rewrite P.
Qed.

Lemma rstrip_by_idem p s : rstrip_by p (rstrip_by p s) = rstrip_by p s.
Proof.
  induction s as [|c s IH]; [reflexivity|]. simpl.
  destruct (rstrip_by p s) as [|d r] eqn:R.
  - destruct (p c) eqn:P; [reflexivity|]. simpl. now rewrite P.
  - change (rstrip_by p (String c (String d r)))
      with (match rstrip_by p (String d r) with
            | EmptyString => if p c then EmptyString else str1 c
            | r' => String c r'
            end).
    rewrite IH. reflexivity.
Qed.

Lemma lstrip_by_rstrip p s :
  lstrip_by p s = s -> lstrip_by p (rstrip_by p s) = rstrip_by p s.
Proof.
  intros H. apply lstrip_by_fixed in H. destruct s as [|c s]; [reflexivity|].
  simpl. destruct (rstrip_by p s) as [|d r].
  - rewrite H. simpl. now rewrite H.
  - simpl. now rewrite H.
Qed.

Section CharMap.

(** A string function that acts character by character, like [lower()] and
    [replace(" ", "_")], and never turns a non-space into a space. *)
Variable p : ascii -> bool.
Variable F : string -> string.
Variable f : ascii -> ascii.
Hypothesis F_nil : F "" = "".
Hypothesis F_cons : forall c s, F (String c s) = String (f c) (F s).
Hypothesis f_keeps : forall c, p c = false -> p (f c) = false.

Lemma charmap_nonempty s : s <> "" -> F s <> "".
Proof. destruct s as [|c s]; [congruence|]. rewrite F_cons. discriminate. Qed.

Lemma charmap_lstrip s : lstrip_by p s = s -> lstrip_by p (F s) = F s.
Proof.
  rewrite !lstrip_by_fixed. destruct s as [|c s]; [now rewrite F_nil|].
  rewrite F_cons. apply f_keeps.
Qed.

Lemma charmap_rstrip s : rstrip_by p s = s -> rstrip_by p (F s) = F s.
Proof.
  induction s as [|c s IH]; [now rewrite F_nil|].
  simpl. rewrite F_cons. simpl.
  destruct (rstrip_by p s) as [|d r] eqn:R.
  - destruct (p c) eqn:P; [discriminate|]. intros H. inversion H; subst s.
    rewrite F_nil. simpl. now rewrite f_keeps.
  - intros H. injection H as Hs. subst s. rewrite (IH eq_refl).
    destruct (F (String d r)) eqn:E; [|reflexivity].
    exfalso. exact (charmap_nonempty (String d r) ltac:(discriminate) E).
Qed.

End CharMap.

(** Extra (_normalize_site_name): when a name is given, the normalised name
    is a fixed point: entering it again (whatever the URL) gives the same
    site name back. *)
Theorem normalize_site_name_idempotent (raw_name : option string)
    (fallback_url fallback_url' chosen_site : string) :
  py_strip (or_empty raw_name) <> "" ->
  normalize_site_name raw_name fallback_url = ret chosen_site ->
  normalize_site_name (Some chosen_site) fallback_url' = ret chosen_site.
Proof.
  intros Ht H. rewrite normalize_site_name_cases in H. simpl in H.
  set (t := py_strip (or_empty raw_name)) in *.
  assert (Lne : py_lower t <> "").
  { apply (charmap_nonempty py_lower lower_char); [reflexivity | exact Ht]. }
  apply truthy_true in Lne. rewrite Lne in H. injection H as <-.
  set (n1 := py_replace " " "_" (py_lower t)).
  assert (Hl : lstrip_by py_isspace t = t).
  { unfold t, py_strip, strip_by. apply lstrip_by_rstrip, lstrip_by_idem. }
  assert (Hr : rstrip_by py_isspace t = t).
  { unfold t, py_strip, strip_by. apply rstrip_by_idem. }
  assert (Kl : forall c, py_isspace c = false -> py_isspace (lower_char c) = false).
  { intros c. now rewrite lower_char_isspace. }
  assert (Kr : forall c, py_isspace c = false -> py_isspace (space_to_underscore c) = false).
  { intros c. unfold space_to_underscore. destruct (Ascii.eqb " " c); [reflexivity | tauto]. }
  assert (S : py_strip n1 = n1).
  { unfold py_strip, strip_by, n1.
    rewrite (charmap_lstrip py_isspace _ space_to_underscore eq_refl py_replace_space_cons Kr).
    - apply (charmap_rstrip py_isspace _ space_to_underscore eq_refl py_replace_space_cons Kr).
      exact (charmap_rstrip py_isspace py_lower lower_char eq_refl (fun _ _ => eq_refl) Kl _ Hr).
    - exact (charmap_lstrip py_isspace py_lower lower_char eq_refl (fun _ _ => eq_refl) Kl _ Hl). }
  assert (L : py_lower n1 = n1) by exact (py_lower_id _ (replace_space_no_upper _ (no_upper_lower t))).
  assert (R : py_replace " " "_" n1 = n1) by exact (py_replace_id _ (replace_space_no_space _)).
  assert (T : truthy n1 = true).
  { apply truthy_true, replace_space_nonempty. now apply truthy_true. }
  rewrite normalize_site_name_cases. simpl. rewrite S, L, T, R. reflexivity.
Qed.

Lemma normalize_site_name_idempotent_witness :
  normalize_site_name (Some " My Blog ") "https://x" = ret "my_blog" /\
  normalize_site_name (Some "my_blog") "https://y" = ret "my_blog".
Proof.
  assert (N : normalize_site_name (Some " My Blog ") "https://x" = ret "my_blog")
    by (vm_compute; reflexivity).
  split; [exact N|].
  exact (normalize_site_name_idempotent (Some " My Blog ") "https://x" "https://y" "my_blog"
           ltac:(vm_compute; discriminate) N).
Defined.

Lemma fetch_site_items_raises (soup_parse : string -> result Node)
    (css_select : string -> Node -> result (list Node))
    (session_get : string -> result Response)
    (site_configs : gmap string SiteConfig) (site_name : string) (limit : Z) (e : exn) :
  fetch_site_items soup_parse css_select session_get site_configs site_name limit = raise e ->
  exists msg, e = ValueError msg.
Proof.
  unfold fetch_site_items. destruct (site_configs !! site_name).
  - destruct (fetch_body _ _ _ _ _); discriminate.
  - intros H. inversion H. eauto.
Qed.

(** Extra (export_site_items): apart from the file system, which the model
    does not let fail, [export_site_items] never raises: every failure of
    the fetch, an unknown site included, ends in [None]. *)
Theorem export_site_items_never_raises (soup_parse : string -> result Node)
    (css_select : string -> Node -> result (list Node))
    (session_get : string -> result Response)
    (site_configs : gmap string SiteConfig) (now_date now_hour : string)
    (fs : gmap string string) (site_name : string) (date hour : option string) :
  exists path,
    fst (export_site_items soup_parse css_select session_get site_configs now_date now_hour
           fs site_name date hour) = ret path.
Proof.
  unfold export_site_items.
  destruct (fetch_site_items soup_parse css_select session_get site_configs site_name 30)
    as [e|[|it rest]] eqn:F.
  - destruct (fetch_site_items_raises _ _ _ _ _ _ _ F) as [msg ->]. eauto.
  - eauto.
  - eauto.
Qed.

(** Extra (generate_custom_site_report): leaving aside the report
    generator and the file system, the only exceptions that escape
    [generate_custom_site_report] are those of [urlparse] on the ad-hoc
    URL (stripped, or as given when no name is given); then nothing is
    registered and no file is written. A URL that [urlparse] refuses, such
    as one with an unclosed [\[] in its host, raises instead of giving the
    invalid-URL message. *)
Theorem generate_raises_only_from_urlparse (soup_parse : string -> result Node)
    (css_select : string -> Node -> result (list Node))
    (session_get : string -> result Response)
    (site_configs : gmap string SiteConfig) (now_date now_hour : string)
    (fs : gmap string string)
    (site_name custom_site_name custom_site_url custom_item_selector
     custom_title_selector custom_link_selector custom_summary_selector
     custom_base_url : option string) (e : exn) :
  let gen := generate_custom_site_report soup_parse css_select session_get site_configs
               now_date now_hour fs site_name custom_site_name custom_site_url
               custom_item_selector custom_title_selector custom_link_selector
               custom_summary_selector custom_base_url in
  let adhoc := truthy (or_empty custom_site_url) && truthy (or_empty custom_item_selector)
               && truthy (or_empty custom_title_selector) in
  (fst gen = raise e ->
   adhoc = true /\ snd gen = (site_configs, fs) /\
   (urlparse (py_strip (or_empty custom_site_url)) "" = raise e \/
    normalize_site_name custom_site_name (or_empty custom_site_url) = raise e)) /\
  (adhoc = true -> urlparse (py_strip (or_empty custom_site_url)) "" = raise e ->
   gen = (raise e, (site_configs, fs))).
Proof.
  intros gen adhoc. unfold gen, adhoc, generate_custom_site_report.
  split.
  - destruct (truthy (or_empty custom_site_url) && truthy (or_empty custom_item_selector)
              && truthy (or_empty custom_title_selector)).
    + destruct (urlparse (py_strip (or_empty custom_site_url)) "") as [e0|parsed] eqn:P.
      * simpl. intros H. inversion H; subst. auto.
      * destruct (negb (truthy (pr_scheme parsed)) || negb (truthy (pr_netloc parsed)));
          [discriminate|].
        destruct (normalize_site_name custom_site_name (or_empty custom_site_url))
          as [e0|chosen] eqn:N.
        -- simpl. intros H. inversion H; subst. auto.
        -- unfold export_and_report.
           destruct (export_site_items soup_parse css_select session_get _ now_date now_hour
                       fs chosen None None) as [r fs'] eqn:X.
           pose proof (export_site_items_never_raises soup_parse css_select session_get
                         (<[name (adhoc_config chosen parsed custom_site_url
                                   custom_item_selector custom_title_selector
                                   custom_link_selector custom_summary_selector
                                   custom_base_url) :=
                            adhoc_config chosen parsed custom_site_url custom_item_selector
                              custom_title_selector custom_link_selector
                              custom_summary_selector custom_base_url]> site_configs)
                         now_date now_hour fs chosen None None) as [o Ho].
           rewrite X in Ho. simpl in Ho. subst r.
           destruct o; discriminate.
    + destruct (negb (truthy (or_empty site_name))); [discriminate|].
      unfold export_and_report.
      destruct (export_site_items soup_parse css_select session_get site_configs now_date
                  now_hour fs (or_empty site_name) None None) as [r fs'] eqn:X.
      pose proof (export_site_items_never_raises soup_parse css_select session_get
                    site_configs now_date now_hour fs (or_empty site_name) None None)
        as [o Ho].
      rewrite X in Ho. simpl in Ho. subst r. destruct o; discriminate.
  - intros A P. rewrite A, P. reflexivity.
Qed.

Lemma generate_raises_only_from_urlparse_witness :
  urlparse "http://[x" "" = raise (ValueError "Invalid IPv6 URL") /\
  generate_custom_site_report (parse_to rss_doc) tag_select serve_ok rss_registry
    "2026-10-19" "09" ∅ (Some "rss") None (Some " http://[x ") (Some "item") (Some "title")
    None None None
  = (raise (ValueError "Invalid IPv6 URL"), (rss_registry, ∅)).
Proof.
  split; [vm_compute; reflexivity|].
  exact (proj2 (generate_raises_only_from_urlparse (parse_to rss_doc) tag_select serve_ok
                  rss_registry "2026-10-19" "09" ∅ (Some "rss") None (Some " http://[x ")
                  (Some "item") (Some "title") None None None
                  (ValueError "Invalid IPv6 URL"))
           eq_refl ltac:(vm_compute; reflexivity)).
Defined.
